(** * Modbus TCP client: frame codec, transaction verifier, transport session

    A shallow embedding of the Go package [modbustcp] (type [ModbusTcpClient]
    with [Connect], [Disconnect], [Encode], [Decode], [Verify], [Send],
    [flush], and the function [FailureCodeToError]) together with the
    theorems that relate it to its natural-language specification.

    Conventions of the embedding:
    - a Go [byte] is a [Byte.byte]; a [[]byte] is a [list byte];
    - a [uint16] is a [Z] whose wrap-around modulo 65536 is written out at
      every operation that can overflow; an [int] is a [Z];
    - a run-time panic (index or slice bound out of range) is the [Panicked]
      outcome of the [go] monad;
    - a Go [error] value is a term of the inductive [error]; the
      multi-value return [(x, err)] is a pair whose second component is an
      [option error] ([None] is [nil]);
    - the network is reached through [call]s, each answered by the
      environment; a method that talks to the network is a [prog], a finite
      tree of calls. *)

From Stdlib Require Import ZArith String List Bool Lia.
From Stdlib Require Import Init.Byte Strings.Byte.
From Stdlib Require DecimalString.
Import ListNotations.

Local Open Scope string_scope.
Local Open Scope list_scope.
Local Open Scope Z_scope.

(** ** Go values *)

Definition byte_to_Z (b : byte) : Z := Z.of_N (Byte.to_N b).

(** The conversion [byte(x)] of an integer: the low eight bits. *)
Definition byte_of_Z (z : Z) : byte :=
  match Byte.of_N (Z.to_N (z mod 256)) with
  | Some b => b
  | None => x00
  end.

(** [len(s)] as a Go [int]. *)
Definition len {A : Type} (s : list A) : Z := Z.of_nat (length s).

(** The conversion [uint16(x)]. *)
Definition uint16 (z : Z) : Z := z mod 65536.

(** Outcome of a computation that may panic. *)
Inductive go (A : Type) : Type :=
| Done (a : A)
| Panicked.

Arguments Done {A} a.
Arguments Panicked {A}.

Definition go_bind {A B : Type} (m : go A) (f : A -> go B) : go B :=
  match m with
  | Done a => f a
  | Panicked => Panicked
  end.

Notation "x <- m ;; k" := (go_bind m (fun x => k))
  (at level 61, m at next level, right associativity).

(** [s[i]]: panics when [i] is not below [len(s)]. *)
Definition index (s : list byte) (i : nat) : go byte :=
  match nth_error s i with
  | Some b => Done b
  | None => Panicked
  end.

(** [s[i:]]: panics when [i] exceeds [len(s)]. *)
Definition slice_from (s : list byte) (i : nat) : go (list byte) :=
  if (i <=? length s)%nat then Done (skipn i s) else Panicked.

(** [s[i] = b] on the buffer [s]: panics out of range. *)
Definition store (s : list byte) (i : nat) (b : byte) : go (list byte) :=
  if (i <? length s)%nat
  then Done (firstn i s ++ b :: skipn (S i) s)
  else Panicked.

(** [copy(dst[off:], src)] seen on the whole buffer [dst]: the slice
    expression panics when [off] exceeds [len(dst)]; [copy] itself moves
    [min(len(dst) - off, len(src))] bytes and never panics. *)
Definition copy_at (dst : list byte) (off : nat) (src : list byte)
  : go (list byte) :=
  if (off <=? length dst)%nat then
    let moved := firstn (length dst - off) src in
    Done (firstn off dst ++ moved ++ skipn (off + length moved) dst)
  else Panicked.

(** [make([]byte, n)]. *)
Definition make (n : nat) : list byte := repeat x00 n.

(** ** encoding/binary, big endian *)

(** [binary.BigEndian.Uint16(b)]: the bounds check [_ = b[1]] first. *)
Definition Uint16 (b : list byte) : go Z :=
  match b with
  | b0 :: b1 :: _ =>
      Done (Z.lor (byte_to_Z b1) (Z.shiftl (byte_to_Z b0) 8))
  | _ => Panicked
  end.

(** [binary.BigEndian.PutUint16(b[off:], v)] seen on the whole buffer [b]. *)
Definition PutUint16 (b : list byte) (off : nat) (v : Z) : go (list byte) :=
  if (off + 2 <=? length b)%nat then
    b1 <- store b off (byte_of_Z (Z.shiftr v 8)) ;;
    store b1 (S off) (byte_of_Z v)
  else Panicked.

(** ** Errors *)

Inductive error : Type :=
| New (text : string)                       (* errors.New *)
| Errorf (format : string) (args : list Z)  (* fmt.Errorf with %v arguments *)
| NetError (timeout : bool) (text : string) (* an error of package net or io *).

Definition ErrorIllegalFunction := New "Illegal Function".
Definition ErrorIllegalDataAddress := New "Illegal Data Address".
Definition ErrorIllegalDataValue := New "Illegal Data Value".
Definition ErrorSlaveDeviceFailure := New "Slave Device Failure".
Definition ErrorAcknowledge := New "Acknowledge".
Definition ErrorSlaveIsBusy := New "The Slave is Busy".
Definition ErrorGatewayPathUnavailable := New "The gateway path is unavailable".
Definition ErrorUnknown := New "unknown error occured".

(** ** Constants *)

Definition ExcIllegalFunction : Z := 1.
Definition ExcIllegalDataAdr : Z := 2.
Definition ExcIllegalDataVal : Z := 3.
Definition ExcSlaveDeviceFailure : Z := 4.
Definition ExcAcknowledge : Z := 5.
Definition ExcSlaveIsBusy : Z := 6.
Definition ExcGatePathUnavailable : Z := 10.

Definition TcpProtocolIdentifier : Z := 0.
Definition HeaderSize : nat := 7.
Definition MaxLength : nat := 260.
Definition TimeoutMillis : Z := 5000.
(** [time.Millisecond], a [time.Duration] counted in nanoseconds. *)
Definition Millisecond : Z := 1000000.

(** ** The client and the protocol data unit *)

(** A [net.Conn] is known by the identity of its handle. *)
Definition conn : Type := nat.

Record ModbusTcpClient : Type := {
  IpAddress : string;
  Port : Z;
  Timeout : Z;
  SlaveId : byte;
  TransactionId : Z;
  Logger : bool;          (* whether a *log.Logger is set *)
  Conn : option conn
}.

Record Pdu : Type := {
  FunctionCode : byte;
  Data : list byte
}.

Definition NewModbusTcpClient (ipAddress : string) (port : Z)
  : ModbusTcpClient :=
  {| IpAddress := ipAddress; Port := port; Timeout := 0; SlaveId := x00;
     TransactionId := 0; Logger := false; Conn := None |}.

Definition set_TransactionId (c : ModbusTcpClient) (t : Z) : ModbusTcpClient :=
  {| IpAddress := IpAddress c; Port := Port c; Timeout := Timeout c;
     SlaveId := SlaveId c; TransactionId := t; Logger := Logger c;
     Conn := Conn c |}.

Definition set_Timeout (c : ModbusTcpClient) (t : Z) : ModbusTcpClient :=
  {| IpAddress := IpAddress c; Port := Port c; Timeout := t;
     SlaveId := SlaveId c; TransactionId := TransactionId c;
     Logger := Logger c; Conn := Conn c |}.

Definition set_Conn (c : ModbusTcpClient) (k : option conn) : ModbusTcpClient :=
  {| IpAddress := IpAddress c; Port := Port c; Timeout := Timeout c;
     SlaveId := SlaveId c; TransactionId := TransactionId c;
     Logger := Logger c; Conn := k |}.

(** ** Frame codec *)

Definition length_mismatch_format : string :=
  "modbus: length in response '%v' does not match pdu data length '%v'".

(** [Encode]: the receiver after the call, and the returned
    [([]byte, error)]. *)
Definition Encode (c : ModbusTcpClient) (pdu : Pdu)
  : go (ModbusTcpClient * (list byte * option error)) :=
  let adu := make (HeaderSize + 1 + length (Data pdu)) in
  let c := set_TransactionId c (uint16 (TransactionId c + 1)) in
  adu <- PutUint16 adu 0 (TransactionId c) ;;
  adu <- PutUint16 adu 2 TcpProtocolIdentifier ;;
  let length := uint16 (1 + 1 + len (Data pdu)) in
  adu <- PutUint16 adu 4 length ;;
  adu <- store adu 6 (SlaveId c) ;;
  adu <- store adu HeaderSize (FunctionCode pdu) ;;
  adu <- copy_at adu (HeaderSize + 1) (Data pdu) ;;
  Done (c, (adu, None)).

(** [Decode]: the returned [( *Pdu, error)]. The receiver is not used. *)
Definition Decode (adu : list byte) : go (option Pdu * option error) :=
  tl <- slice_from adu 4 ;;
  length <- Uint16 tl ;;
  let pduLength := len adu - Z.of_nat HeaderSize in
  if (pduLength <=? 0) || negb (pduLength =? uint16 (length - 1)) then
    Done (None,
          Some (Errorf length_mismatch_format [uint16 (length - 1); pduLength]))
  else
    fc <- index adu HeaderSize ;;
    data <- slice_from adu (HeaderSize + 1) ;;
    Done (Some {| FunctionCode := fc; Data := data |}, None).

(** ** Transaction verifier *)

Definition transaction_id_format : string :=
  "modbus: response transaction id '%v' does not match request '%v'".
Definition protocol_id_format : string :=
  "modbus: response protocol id '%v' does not match request '%v'".
Definition unit_id_format : string :=
  "modbus: response unit id '%v' does not match request '%v'".

(** [Verify]: the returned [error]. The receiver is not used. *)
Definition Verify (aduRequest aduResponse : list byte) : go (option error) :=
  responseVal <- Uint16 aduResponse ;;
  requestVal <- Uint16 aduRequest ;;
  if negb (responseVal =? requestVal) then
    Done (Some (Errorf transaction_id_format [responseVal; requestVal]))
  else
    rtl <- slice_from aduResponse 2 ;;
    responseVal <- Uint16 rtl ;;
    qtl <- slice_from aduRequest 2 ;;
    requestVal <- Uint16 qtl ;;
    if negb (responseVal =? requestVal) then
      Done (Some (Errorf protocol_id_format [responseVal; requestVal]))
    else
      r6 <- index aduResponse 6 ;;
      q6 <- index aduRequest 6 ;;
      if negb (Byte.eqb r6 q6) then
        Done (Some (Errorf unit_id_format [byte_to_Z r6; byte_to_Z q6]))
      else Done None.

(** ** Error mapper *)

Definition FailureCodeToError (errorCode : Z) : error :=
  if errorCode =? ExcIllegalFunction then ErrorIllegalFunction
  else if errorCode =? ExcIllegalDataAdr then ErrorIllegalDataAddress
  else if errorCode =? ExcIllegalDataVal then ErrorIllegalDataValue
  else if errorCode =? ExcSlaveDeviceFailure then ErrorSlaveDeviceFailure
  else if errorCode =? ExcAcknowledge then ErrorAcknowledge
  else if errorCode =? ExcSlaveIsBusy then ErrorSlaveIsBusy
  else if errorCode =? ExcGatePathUnavailable then ErrorGatewayPathUnavailable
  else ErrorUnknown.

(** ** Checksum engine *)

Module CRC.


(** Modelled from the spec: one round of the reduction. *)
Definition round (crc : Z) : Z :=
  if Z.testbit crc 0
  then Z.lxor (Z.shiftr crc 1) 0xA001
  else Z.shiftr crc 1.

(** Modelled from the spec: folding one byte into the state. *)
Definition pushByte (crc : Z) (b : byte) : Z :=
  Nat.iter 8 round (Z.lxor crc (byte_to_Z b)).

(** Modelled from the spec: [PushBytes]. *)
Definition PushBytes (crc : Z) (bs : list byte) : Z :=
  fold_left pushByte bs crc.


End CRC.

(** ** The network

    Everything the client asks of packages [net], [io], [time] and [log] is
    a [call]; the environment gives each call its [answer]. *)

Inductive call : Type :=
| Now
| Dial (network address : string) (timeout : Z)
| Close (k : conn)
| SetDeadline (k : conn) (t : Z)
| SetReadDeadline (k : conn) (t : Z)
| ConnWrite (k : conn) (b : list byte)
| ConnRead (k : conn) (n : nat)   (* Read into a buffer of n bytes *)
| ReadFull (k : conn) (n : nat)   (* io.ReadFull into a buffer of n bytes *)
| Printf (format : string) (arg : list byte).

Definition answer (c : call) : Type :=
  match c with
  | Now => Z
  | Dial _ _ _ => (option conn * option error)%type
  | Close _ | SetDeadline _ _ | SetReadDeadline _ _ => option error
  | ConnWrite _ _ => (Z * option error)%type
  | ConnRead _ _ | ReadFull _ _ => (list byte * option error)%type
  | Printf _ _ => unit
  end.

(** A method that talks to the network: it returns, panics, or makes a
    call and goes on with the answer. *)
Inductive prog (A : Type) : Type :=
| Ret (a : A)
| Crash
| Vis (c : call) (k : answer c -> prog A).

Arguments Ret {A} a.
Arguments Crash {A}.
Arguments Vis {A} c k.

Fixpoint bind {A B : Type} (p : prog A) (f : A -> prog B) : prog B :=
  match p with
  | Ret a => f a
  | Crash => Crash
  | Vis c k => Vis c (fun r => bind (k r) f)
  end.

Definition ask (c : call) : prog (answer c) := Vis c (fun r => Ret r).

Definition lift {A : Type} (m : go A) : prog A :=
  match m with
  | Done a => Ret a
  | Panicked => Crash
  end.

(** [defer cleanup] around [body]: the deferred call runs when the body
    returns and when it panics; its own results are dropped by the caller
    through [ret]. *)
Fixpoint deferred {A B C : Type} (body : prog A) (cleanup : prog B)
    (ret : A -> B -> C) : prog C :=
  match body with
  | Ret a => bind cleanup (fun b => Ret (ret a b))
  | Crash => bind cleanup (fun _ => Crash)
  | Vis c k => Vis c (fun r => deferred (k r) cleanup ret)
  end.

Declare Scope prog_scope.
Delimit Scope prog_scope with prog.
Notation "x <- m ;; k" := (bind m (fun x => k))
  (at level 61, m at next level, right associativity) : prog_scope.
Notation "' pat <- m ;; k" := (bind m (fun x => match x with pat => k end))
  (at level 61, pat pattern, m at next level, right associativity)
  : prog_scope.

(** ** Transport session *)

Definition Connect (c : ModbusTcpClient)
  : prog (ModbusTcpClient * option error) :=
  let c :=
    if Timeout c <=? 0
    then set_Timeout c (TimeoutMillis * Millisecond)
    else c in
  ('(conn, err) <- ask (Dial "tcp" (IpAddress c) (Timeout c)) ;;
   Ret (set_Conn c conn, err))%prog.

Definition Disconnect (c : ModbusTcpClient)
  : prog (ModbusTcpClient * option error) :=
  match Conn c with
  | Some k =>
      (err <- ask (Close k) ;;
       match err with
       | Some e => Ret (c, Some e)
       | None => Ret (set_Conn c None, None)
       end)%prog
  | None => Ret (c, None)
  end.

(** What a read leaves in the window [buf[off : off+n]] of the buffer. *)
Definition fill (buf : list byte) (off n : nat) (bytes : list byte)
  : list byte :=
  let got := firstn n bytes in
  firstn off buf ++ got ++ skipn (off + length got) buf.

(** [flush]: the returned [error].  The bytes it reads land in [b], which
    no caller looks at afterwards.  A method call on a nil [Conn] panics. *)
Definition flush (c : ModbusTcpClient) (b : list byte) : prog (option error) :=
  match Conn c with
  | None => Crash
  | Some k =>
      (now <- ask Now ;;
       err <- ask (SetReadDeadline k now) ;;
       match err with
       | Some e => Ret (Some e)
       | None =>
           '(_, err) <- ask (ConnRead k (length b)) ;;
           (* a timeout is cleared, any other error is dropped *)
           let _ :=
             match err with
             | Some (NetError true _) => None
             | _ => err
             end in
           Ret None
       end)%prog
  end.

Definition sending_format : string := "modbus: sending % x\n".
Definition received_format : string := "modbus: received % x\n".
Definition zero_length_format : string :=
  "modbus: length in response header '%v' must not be zero".
Definition long_length_format : string :=
  "modbus: length in response header '%v' must not greater than '%v'".

Definition logf (c : ModbusTcpClient) (format : string) (arg : list byte)
  : prog unit :=
  if Logger c then ask (Printf format arg) else Ret tt.

(** The body of [Send] from the first log line on: the returned
    [([]byte, error)]. *)
Definition exchange (c : ModbusTcpClient) (request : list byte)
  : prog (list byte * option error) :=
  let data := make MaxLength in
  let response : list byte := [] in
  (_ <- logf c sending_format request ;;
   match Conn c with
   | None => Crash
   | Some k =>
   now <- ask Now ;;
   err <- ask (SetDeadline k (now + Timeout c)) ;;
   match err with Some e => Ret (response, Some e) | None =>
   '(_, err) <- ask (ConnWrite k request) ;;
   match err with Some e => Ret (response, Some e) | None =>
   '(bytes, err) <- ask (ReadFull k HeaderSize) ;;
   let data := fill data 0 HeaderSize bytes in
   match err with Some e => Ret (response, Some e) | None =>
   length <- lift (go_bind (slice_from data 4) Uint16) ;;
   if length <=? 0 then
     _ <- flush c data ;;
     Ret (response, Some (Errorf zero_length_format [length]))
   else if length >? Z.of_nat (MaxLength - (HeaderSize - 1)) then
     _ <- flush c data ;;
     Ret (response,
          Some (Errorf long_length_format
                  [length; Z.of_nat (MaxLength - HeaderSize + 1)]))
   else
     let length := Z.to_nat (length + Z.of_nat (HeaderSize - 1)) in
     (* data[HeaderSize:length] *)
     if (HeaderSize <=? length)%nat && (length <=? MaxLength)%nat then
       '(bytes, err) <- ask (ReadFull k (length - HeaderSize)) ;;
       let data := fill data HeaderSize (length - HeaderSize) bytes in
       match err with Some e => Ret (response, Some e) | None =>
       let response := firstn length data in
       _ <- logf c received_format response ;;
       Ret (response, None)
       end
     else Crash
   end end end
   end)%prog.

(** [Send]: the receiver after the call, and the returned
    [([]byte, error)]. *)
Definition Send (c : ModbusTcpClient) (request : list byte)
  : prog (ModbusTcpClient * (list byte * option error)) :=
  match Conn c with
  | None =>
      ('(c, err) <- Connect c ;;
       match err with
       | Some e => Ret (c, ([], Some e))
       | None =>
           deferred (exchange c request) (Disconnect c)
             (fun r d => (fst d, r))
       end)%prog
  | Some _ =>
      (r <- exchange c request ;; Ret (c, r))%prog
  end.

(** ** Running a method against an environment *)

(** What an observer of the connection sees: every call with its answer. *)
Inductive event : Type :=
| ENow (t : Z)
| EDial (network address : string) (timeout : Z)
    (k : option conn) (err : option error)
| EClose (k : conn) (err : option error)
| ESetDeadline (k : conn) (t : Z) (err : option error)
| ESetReadDeadline (k : conn) (t : Z) (err : option error)
| EWrite (k : conn) (b : list byte) (n : Z) (err : option error)
| ERead (k : conn) (n : nat) (bytes : list byte) (err : option error)
| EReadFull (k : conn) (n : nat) (bytes : list byte) (err : option error)
| EPrintf (format : string) (arg : list byte).

Definition record (c : call) : answer c -> event :=
  match c with
  | Now => fun t => ENow t
  | Dial network address timeout =>
      fun r => EDial network address timeout (fst r) (snd r)
  | Close k => fun err => EClose k err
  | SetDeadline k t => fun err => ESetDeadline k t err
  | SetReadDeadline k t => fun err => ESetReadDeadline k t err
  | ConnWrite k b => fun r => EWrite k b (fst r) (snd r)
  | ConnRead k n => fun r => ERead k n (fst r) (snd r)
  | ReadFull k n => fun r => EReadFull k n (fst r) (snd r)
  | Printf format arg => fun _ => EPrintf format arg
  end.

(** An environment: some state of the world, and an answer to every call. *)
Record Env : Type := {
  world : Type;
  reply : forall c : call, world -> answer c * world
}.

(** The outcome of a method, the calls it made with their answers, and the
    world it leaves. *)
Fixpoint run (E : Env) {A : Type} (p : prog A) (w : world E)
  : go A * list event * world E :=
  match p with
  | Ret a => (Done a, [], w)
  | Crash => (Panicked, [], w)
  | Vis c k =>
      let (r, w1) := reply E c w in
      let x := run E (k r) w1 in
      (fst (fst x), record c r :: snd (fst x), snd x)
  end.

Definition outcome {E : Env} {A : Type} (x : go A * list event * world E)
  : go A := fst (fst x).
Definition trace {E : Env} {A : Type} (x : go A * list event * world E)
  : list event := snd (fst x).

(** The first [io.ReadFull] of a trace: in [Send], the read of the
    response header. *)
Fixpoint header (tr : list event) : option event :=
  match tr with
  | [] => None
  | EReadFull k n bytes err :: _ => Some (EReadFull k n bytes err)
  | _ :: tr => header tr
  end.

(** The events that follow the first [io.ReadFull] of a trace. *)
Fixpoint after_header (tr : list event) : list event :=
  match tr with
  | [] => []
  | EReadFull _ _ _ _ :: tr => tr
  | _ :: tr => after_header tr
  end.

Definition is_read_full (e : event) : bool :=
  match e with
  | EReadFull _ _ _ _ => true
  | _ => false
  end.

(** The drain of [flush] on connection [k] with a buffer of [n] bytes, as
    it shows in a trace: an already expired read deadline, then, unless
    setting it failed, one read. *)
Definition drain (k : conn) (n : nat) (tr : list event) : Prop :=
  match tr with
  | ENow t :: ESetReadDeadline k1 t1 (Some _) :: _ => k1 = k /\ t1 = t
  | ENow t :: ESetReadDeadline k1 t1 None :: ERead k2 n2 _ _ :: _ =>
      k1 = k /\ t1 = t /\ k2 = k /\ n2 = n
  | _ => False
  end.

(** ** A scripted peer

    A small environment to run the methods on: a server listening on one
    address, the bytes it will send, whether closing reports an error. *)

Record Script : Type := {
  listening : string;
  pending : list byte;
  close_error : option error;
  clock : Z
}.

Definition set_pending (w : Script) (p : list byte) : Script :=
  {| listening := listening w; pending := p;
     close_error := close_error w; clock := clock w |}.

Definition script_reply (c : call) (w : Script) : answer c * Script :=
  match c with
  | Now => (clock w, w)
  | Dial _ address _ =>
      if String.eqb address (listening w)
      then ((Some 1%nat, None), w)
      else ((None, Some (NetError false "connect: connection refused")), w)
  | Close _ => (close_error w, w)
  | SetDeadline _ _ => (None, w)
  | SetReadDeadline _ _ => (None, w)
  | ConnWrite _ b => ((len b, None), w)
  | ConnRead _ n =>
      match pending w with
      | [] => (([], Some (NetError true "i/o timeout")), w)
      | p => ((firstn n p, None), set_pending w (skipn n p))
      end
  | ReadFull _ n =>
      if (n <=? length (pending w))%nat
      then ((firstn n (pending w), None), set_pending w (skipn n (pending w)))
      else ((pending w, Some (NetError false "unexpected EOF")),
            set_pending w [])
  | Printf _ _ => (tt, w)
  end.

Definition script : Env := {| world := Script; reply := script_reply |}.

(** ** Reading the specification's words *)

(** The 16-bit big-endian value at offset [off] of a frame. *)
Definition be16_at (frame : list byte) (off : nat) : Z :=
  256 * byte_to_Z (nth off frame x00) + byte_to_Z (nth (S off) frame x00).

(** The byte at offset [off] of a frame. *)
Definition byte_at (frame : list byte) (off : nat) : byte :=
  nth off frame x00.

(** The errors the specification calls framing errors. *)
Definition framing_error (e : error) : bool :=
  match e with
  | Errorf format _ =>
      String.eqb format length_mismatch_format
      || String.eqb format zero_length_format
      || String.eqb format long_length_format
  | _ => false
  end.

(** The address [host:port] of a client, the port in decimal. *)
Definition host_port (c : ModbusTcpClient) : string :=
  IpAddress c ++ ":" ++ DecimalString.NilZero.string_of_int (Z.to_int (Port c)).

(** The frame [Encode] builds, byte for byte. *)
Definition frame_of (tid : Z) (unit : byte) (pdu : Pdu) : list byte :=
  let length := uint16 (2 + len (Data pdu)) in
  [ byte_of_Z (Z.shiftr tid 8); byte_of_Z tid;
    x00; x00;
    byte_of_Z (Z.shiftr length 8); byte_of_Z length;
    unit; FunctionCode pdu ] ++ Data pdu.

(** The three header fields [Verify] compares, in the order it compares
    them. *)
Inductive field : Type := FTransactionId | FProtocolId | FUnitId.

Definition field_name (f : field) : string :=
  match f with
  | FTransactionId => "transaction id"
  | FProtocolId => "protocol id"
  | FUnitId => "unit id"
  end.

(** The first field on which a response disagrees with its request. *)
Definition first_mismatch (request response : list byte) : option field :=
  if negb (be16_at response 0 =? be16_at request 0) then Some FTransactionId
  else if negb (be16_at response 2 =? be16_at request 2) then Some FProtocolId
  else if negb (Byte.eqb (byte_at response 6) (byte_at request 6))
  then Some FUnitId
  else None.

(** The error [Verify] raises for a field. *)
Definition mismatch (f : field) (request response : list byte) : error :=
  match f with
  | FTransactionId =>
      Errorf transaction_id_format [be16_at response 0; be16_at request 0]
  | FProtocolId =>
      Errorf protocol_id_format [be16_at response 2; be16_at request 2]
  | FUnitId =>
      Errorf unit_id_format
        [byte_to_Z (byte_at response 6); byte_to_Z (byte_at request 6)]
  end.

Definition contains (needle hay : string) : bool :=
  match String.index 0 needle hay with
  | Some _ => true
  | None => false
  end.

(** The fields an error message names. *)
Definition named_fields (e : error) : list field :=
  match e with
  | Errorf format _ =>
      filter (fun f => contains (field_name f) format)
        [FTransactionId; FProtocolId; FUnitId]
  | _ => []
  end.

(** A payload too long for the 16-bit length field, and a frame around a
    payload of 65535 bytes whose length field is zero. *)
Definition long_payload : list byte := repeat x00 (Z.to_nat 65534).
Definition long_frame : list byte := repeat x00 (Z.to_nat 65542).

(** ** Sample sessions and peers *)

(** A client made the way the constructor asks: an address and a port. *)
Definition plant_client : ModbusTcpClient :=
  NewModbusTcpClient "127.0.0.1" 502.

(** A client whose address field already carries the port. *)
Definition joined_client : ModbusTcpClient :=
  NewModbusTcpClient "127.0.0.1:502" 502.

Definition refused : error := NetError false "connect: connection refused".
Definition close_failed : error := NetError false "close: input/output error".

(** A server on port 502 of the local host that answers with [bytes]. *)
Definition peer (bytes : list byte) : Script :=
  {| listening := "127.0.0.1:502"; pending := bytes;
     close_error := None; clock := 0 |}.

(** The same server behind a connection whose close reports an error. *)
Definition peer_failing_close : Script :=
  {| listening := "127.0.0.1:502"; pending := [];
     close_error := Some close_failed; clock := 0 |}.

Definition read_holding : list byte :=
  [x00; x01; x00; x00; x00; x06; x11; x03; x00; x6b; x00; x03].

(** Response headers: transaction 1, unit 0x11, declared lengths 0 and
    255. *)
Definition header_length_0 : list byte :=
  [x00; x01; x00; x00; x00; x00; x11].
Definition header_length_255 : list byte :=
  [x00; x01; x00; x00; x00; xff; x11].

(** ** Callers and observers *)

(** A caller that encodes a list of PDUs one after another on the same
    client, as the request builders would: the client after the last call
    and the frames in the order they were built. *)
Fixpoint EncodeEach (c : ModbusTcpClient) (pdus : list Pdu)
  : go (ModbusTcpClient * list (list byte)) :=
  match pdus with
  | [] => Done (c, [])
  | pdu :: rest =>
      r <- Encode c pdu ;;
      s <- EncodeEach (fst r) rest ;;
      Done (fst s, fst (snd r) :: snd s)
  end.

(** The byte slices a trace writes to a connection, in order. *)
Fixpoint written (tr : list event) : list (list byte) :=
  match tr with
  | [] => []
  | EWrite _ b _ _ :: tr => b :: written tr
  | _ :: tr => written tr
  end.

(** Whether a trace holds a write that reported no error. *)
Definition wrote_ok (request : list byte) (tr : list event) : bool :=
  existsb (fun e =>
             match e with
             | EWrite _ b _ None =>
                 if list_eq_dec Byte.byte_eq_dec b request then true else false
             | _ => false
             end) tr.

Definition is_read (e : event) : bool :=
  match e with
  | EReadFull _ _ _ _ | ERead _ _ _ _ => true
  | _ => false
  end.

(** An event that leaves the set of connections alone and, when it is
    about a connection, is about [k]. *)
Definition stays_on (k : conn) (e : event) : bool :=
  match e with
  | ENow _ | EPrintf _ _ => true
  | EDial _ _ _ _ _ | EClose _ _ => false
  | ESetDeadline k' _ _ | ESetReadDeadline k' _ _ | EWrite k' _ _ _
  | ERead k' _ _ _ | EReadFull k' _ _ _ => Nat.eqb k' k
  end.




(** The timeout [Connect] dials with. *)
Definition dial_timeout (c : ModbusTcpClient) : Z :=
  if Timeout c <=? 0 then TimeoutMillis * Millisecond else Timeout c.

(** A peer whose dial returns neither a connection nor an error, which
    package [net] never does. *)
Definition mute_reply (c : call) (w : unit) : answer c * unit :=
  match c with
  | Now => (0, w)
  | Dial _ _ _ => ((None, None), w)
  | Close _ => (None, w)
  | SetDeadline _ _ => (None, w)
  | SetReadDeadline _ _ => (None, w)
  | ConnWrite _ b => ((len b, None), w)
  | ConnRead _ _ => (([], None), w)
  | ReadFull _ _ => (([], None), w)
  | Printf _ _ => (tt, w)
  end.


Definition mute : Env := {| world := unit; reply := mute_reply |}.

(** A server that answers with [bytes] behind a connection whose close
    reports an error. *)
Definition peer_closing_badly (bytes : list byte) : Script :=
  {| listening := "127.0.0.1:502"; pending := bytes;
     close_error := Some close_failed; clock := 0 |}.

(** A client that already holds connection 1. *)
Definition held_client : ModbusTcpClient :=
  set_Conn joined_client (Some 1%nat).

(** A response to [read_holding]: transaction 1, unit 0x11, three bytes
    after the unit id. *)
Definition holding_response : list byte :=
  [x00; x01; x00; x00; x00; x03; x11; x03; x2a].

(** * Theorems *)

(** ** Bytes and 16-bit fields *)

Lemma byte_to_Z_range (b : byte) : 0 <= byte_to_Z b < 256.
Proof.
  unfold byte_to_Z. pose proof (Byte.to_N_bounded b). lia.
Qed.

Lemma byte_of_to_Z (b : byte) : byte_of_Z (byte_to_Z b) = b.
Proof.
  unfold byte_of_Z. rewrite Z.mod_small by apply byte_to_Z_range.
  unfold byte_to_Z. rewrite N2Z.id, Byte.of_to_N. reflexivity.
Qed.

Lemma byte_to_of_Z (z : Z) : byte_to_Z (byte_of_Z z) = z mod 256.
Proof.
  unfold byte_of_Z, byte_to_Z.
  assert (R : 0 <= z mod 256 < 256) by (apply Z.mod_pos_bound; lia).
  destruct (Byte.of_N (Z.to_N (z mod 256))) as [b|] eqn:E.
  - apply Byte.to_of_N in E. rewrite E. lia.
  - apply Byte.of_N_None_iff in E. lia.
Qed.

Lemma byte_to_Z_inj (a b : byte) : byte_to_Z a = byte_to_Z b -> a = b.
Proof.
  intros H. rewrite <- (byte_of_to_Z a), <- (byte_of_to_Z b), H. reflexivity.
Qed.

Lemma lor_shiftl_8 (lo hi : Z) :
  0 <= lo < 256 -> 0 <= hi -> Z.lor lo (Z.shiftl hi 8) = 256 * hi + lo.
Proof.
  intros Hlo Hhi.
  assert (D : Z.land lo (Z.shiftl hi 8) = 0).
  { apply Z.bits_inj'. intros n Hn.
    rewrite Z.land_spec, Z.bits_0.
    destruct (Z.ltb_spec n 8).
    - rewrite (Z.shiftl_spec_low hi 8 n) by lia. apply andb_false_r.
    - replace (Z.testbit lo n) with false; [reflexivity|].
      symmetry. destruct (Z.eq_dec lo 0) as [->|].
      + apply Z.bits_0.
      + apply Z.bits_above_log2; [lia|].
        apply Z.log2_lt_pow2; [lia|].
        apply Z.lt_le_trans with (2 ^ 8); [simpl; lia|].
        apply Z.pow_le_mono_r; lia. }
  rewrite <- Z.lxor_lor by exact D.
  rewrite <- Z.add_nocarry_lxor by exact D.
  rewrite Z.shiftl_mul_pow2 by lia. change (2 ^ 8) with 256. lia.
Qed.

Lemma Uint16_cons (b0 b1 : byte) (tl : list byte) :
  Uint16 (b0 :: b1 :: tl) = Done (256 * byte_to_Z b0 + byte_to_Z b1).
Proof.
  unfold Uint16. rewrite lor_shiftl_8; [reflexivity|apply byte_to_Z_range|].
  apply byte_to_Z_range.
Qed.

(** The two bytes [PutUint16] stores spell the value back, whenever it
    fits sixteen bits. *)
Lemma put_get_16 (v : Z) :
  0 <= v < 65536 ->
  256 * byte_to_Z (byte_of_Z (Z.shiftr v 8)) + byte_to_Z (byte_of_Z v) = v.
Proof.
  intros Hv. rewrite !byte_to_of_Z, Z.shiftr_div_pow2 by lia.
  change (2 ^ 8) with 256.
  rewrite (Z.mod_small (v / 256)).
  - pose proof (Z.div_mod v 256). lia.
  - split; [apply Z.div_pos; lia|].
    apply Z.div_lt_upper_bound; lia.
Qed.

Lemma uint16_range (z : Z) : 0 <= uint16 z < 65536.
Proof. unfold uint16. apply Z.mod_pos_bound. lia. Qed.

(** ** Frame codec *)

Lemma Encode_frame (c : ModbusTcpClient) (pdu : Pdu) :
  let tid := uint16 (TransactionId c + 1) in
  Encode c pdu =
  Done (set_TransactionId c tid, (frame_of tid (SlaveId c) pdu, None)).
Proof.
  destruct pdu as [fc data]. unfold Encode, frame_of, make.
  cbn [TransactionId set_TransactionId SlaveId Data FunctionCode].
  change (1 + 1 + len data) with (2 + len data).
  generalize (uint16 (TransactionId c + 1)) (uint16 (2 + len data)).
  intros tid l16. unfold TcpProtocolIdentifier. simpl.
  rewrite repeat_length, Nat.sub_0_r, firstn_all.
  rewrite skipn_all2 by (rewrite repeat_length; lia).
  rewrite app_nil_r. reflexivity.
Qed.

Lemma frame_of_length (tid : Z) (unit : byte) (pdu : Pdu) :
  length (frame_of tid unit pdu) = (8 + length (Data pdu))%nat.
Proof. reflexivity. Qed.

(** What [Decode] does with a frame that holds the length field. *)
Lemma Decode_cases (adu : list byte) :
  (6 <= length adu)%nat ->
  Decode adu =
  if (len adu - 7 <=? 0) || negb (len adu - 7 =? uint16 (be16_at adu 4 - 1))
  then Done (None,
             Some (Errorf length_mismatch_format
                     [uint16 (be16_at adu 4 - 1); len adu - 7]))
  else Done (Some {| FunctionCode := byte_at adu 7; Data := skipn 8 adu |},
             None).
Proof.
  intros H.
  destruct adu as [|a0 [|a1 [|a2 [|a3 [|a4 [|a5 tl]]]]]];
    try (simpl in H; lia).
  unfold Decode, slice_from.
  replace (4 <=? length (a0 :: a1 :: a2 :: a3 :: a4 :: a5 :: tl))%nat
    with true by reflexivity.
  cbn [skipn go_bind]. rewrite Uint16_cons. cbn [go_bind].
  change (Z.of_nat HeaderSize) with 7.
  change (be16_at (a0 :: a1 :: a2 :: a3 :: a4 :: a5 :: tl) 4)
    with (256 * byte_to_Z a4 + byte_to_Z a5).
  destruct ((len (a0 :: a1 :: a2 :: a3 :: a4 :: a5 :: tl) - 7 <=? 0)
            || negb (len (a0 :: a1 :: a2 :: a3 :: a4 :: a5 :: tl) - 7
                     =? uint16 (256 * byte_to_Z a4 + byte_to_Z a5 - 1)))
    eqn:E; [reflexivity|].
  apply orb_false_elim in E. destruct E as [E _].
  apply Z.leb_gt in E. unfold len in E.
  destruct tl as [|a6 [|a7 tl]]; try (simpl in E; lia).
  reflexivity.
Qed.

Lemma frame_of_fields (tid : Z) (unit : byte) (pdu : Pdu) :
  0 <= tid < 65536 ->
  be16_at (frame_of tid unit pdu) 0 = tid /\
  be16_at (frame_of tid unit pdu) 2 = 0 /\
  be16_at (frame_of tid unit pdu) 4 = uint16 (2 + len (Data pdu)) /\
  byte_at (frame_of tid unit pdu) 6 = unit /\
  byte_at (frame_of tid unit pdu) 7 = FunctionCode pdu /\
  skipn 8 (frame_of tid unit pdu) = Data pdu.
Proof.
  intros Ht. unfold be16_at, byte_at, frame_of. cbn [nth app skipn].
  rewrite !put_get_16 by (exact Ht || apply uint16_range).
  repeat split; reflexivity.
Qed.

(** C1: for every session state, function code and payload of at most 252
    bytes, [Encode] returns a frame without error, and [Decode] of that
    frame returns, without error, the same function code and payload. *)
Theorem Decode_Encode_roundtrip
    (c : ModbusTcpClient) (functionCode : byte) (payload : list byte) :
  (length payload <= 252)%nat ->
  exists c' adu,
    Encode c {| FunctionCode := functionCode; Data := payload |}
      = Done (c', (adu, None)) /\
    Decode adu
      = Done (Some {| FunctionCode := functionCode; Data := payload |}, None).
Proof.
  intros Hlen.
  set (pdu := {| FunctionCode := functionCode; Data := payload |}).
  set (tid := uint16 (TransactionId c + 1)).
  exists (set_TransactionId c tid), (frame_of tid (SlaveId c) pdu).
  split; [apply Encode_frame|].
  destruct (frame_of_fields tid (SlaveId c) pdu (uint16_range _))
    as (_ & _ & Hl & _ & Hf & Hd).
  rewrite Decode_cases by (rewrite frame_of_length; lia).
  rewrite Hl, Hf, Hd. unfold len. rewrite frame_of_length.
  cbn [Data pdu]. unfold uint16.
  rewrite (Z.mod_small (2 + _)) by lia.
  rewrite Z.mod_small by lia.
  replace (Z.of_nat (8 + length payload) - 7 <=? 0) with false
    by (symmetry; apply Z.leb_gt; lia).
  replace (Z.of_nat (8 + length payload) - 7
           =? 2 + Z.of_nat (length payload) - 1) with true
    by (symmetry; apply Z.eqb_eq; lia).
  reflexivity.
Qed.

Lemma Decode_Encode_roundtrip_witness :
  exists c' adu,
    Encode (NewModbusTcpClient "127.0.0.1" 502)
      {| FunctionCode := x03; Data := [x00; x6b; x00; x03] |}
      = Done (c', (adu, None)) /\
    Decode adu
      = Done (Some {| FunctionCode := x03; Data := [x00; x6b; x00; x03] |},
              None).
Proof.
  apply (Decode_Encode_roundtrip (NewModbusTcpClient "127.0.0.1" 502) x03
           [x00; x6b; x00; x03]).
  simpl. lia.
Defined.

(** C2, as amended: for every session state and every PDU, [Encode]
    returns without error a frame of [7 + 1 + len(payload)] bytes: the
    transaction id, big endian at offset 0, is the previous counter plus
    one modulo 65536 (65535 wraps to 0); the protocol id at offset 2 is 0;
    the length field, big endian at offset 4, is [2 + len(payload)] reduced
    modulo 65536, hence [2 + len(payload)] itself for every payload of at
    most 65533 bytes; the unit id is at offset 6, the function code at
    offset 7, the payload from offset 8; the counter stored in the session
    after the call is the transaction id written, and no other field of
    the session changes. *)
Theorem Encode_layout (c : ModbusTcpClient) (pdu : Pdu) :
  exists c' adu,
    Encode c pdu = Done (c', (adu, None)) /\
    length adu = (7 + 1 + length (Data pdu))%nat /\
    be16_at adu 0 = (TransactionId c + 1) mod 65536 /\
    (TransactionId c = 65535 -> be16_at adu 0 = 0) /\
    be16_at adu 2 = 0 /\
    be16_at adu 4 = (2 + len (Data pdu)) mod 65536 /\
    (len (Data pdu) <= 65533 -> be16_at adu 4 = 2 + len (Data pdu)) /\
    byte_at adu 6 = SlaveId c /\
    byte_at adu 7 = FunctionCode pdu /\
    skipn 8 adu = Data pdu /\
    TransactionId c' = be16_at adu 0 /\
    c' = set_TransactionId c (TransactionId c').
Proof.
  set (tid := uint16 (TransactionId c + 1)).
  exists (set_TransactionId c tid), (frame_of tid (SlaveId c) pdu).
  destruct (frame_of_fields tid (SlaveId c) pdu (uint16_range _))
    as (Ht & Hp & Hl & Hu & Hf & Hd).
  rewrite Ht, Hp, Hl, Hu, Hf, Hd.
  split; [apply Encode_frame|].
  repeat split; try reflexivity.
  - intros H. unfold tid. rewrite H. reflexivity.
  - intros H. unfold uint16, len in *. apply Z.mod_small. lia.
Qed.

(** C2, counterexample: around a payload of 65534 bytes [Encode] returns a
    frame whose length field is 0, not [2 + len(payload)]. *)
Lemma Encode_length_field_wraps :
  exists c' adu,
    Encode (NewModbusTcpClient "127.0.0.1" 502)
      {| FunctionCode := x10; Data := long_payload |}
      = Done (c', (adu, None)) /\
    len long_payload = 65534 /\
    be16_at adu 4 = 0 /\
    be16_at adu 4 <> 2 + len long_payload.
Proof.
  assert (L : len long_payload = 65534).
  { unfold len, long_payload. rewrite repeat_length, Z2Nat.id; lia. }
  eexists _, _. split; [apply Encode_frame|].
  match goal with
  | |- context [frame_of ?t ?u ?p] =>
      destruct (frame_of_fields t u p (uint16_range _))
        as (_ & _ & Hl & _)
  end.
  rewrite Hl. cbn [Data]. rewrite L.
  change (uint16 (2 + 65534)) with 0.
  repeat split; lia.
Qed.

Lemma Decode_short (adu : list byte) :
  (length adu < 6)%nat -> Decode adu = Panicked.
Proof.
  intros H.
  destruct adu as [|a0 [|a1 [|a2 [|a3 [|a4 [|a5 tl]]]]]];
    try reflexivity.
  simpl in H. lia.
Qed.

(** C3, at the failing inputs: on every frame shorter than 6 bytes, the
    empty frame and a frame of five bytes for two, [Decode] panics, where
    the claim has it return a framing error; on a frame of 65542 bytes
    whose length field is 0 it succeeds, since [length - 1] wraps to 65535
    in 16 bits. *)
Theorem Decode_short_frame_panics :
  (forall adu : list byte, (length adu < 6)%nat -> Decode adu = Panicked) /\
  Decode [] = Panicked /\
  Decode [x00; x01; x00; x00; x00] = Panicked /\
  (len long_frame = 65542 /\ be16_at long_frame 4 = 0 /\
   Decode long_frame
   = Done (Some {| FunctionCode := x00; Data := skipn 8 long_frame |}, None)).
Proof.
  assert (L : length long_frame = Z.to_nat 65542)
    by apply repeat_length.
  assert (B : be16_at long_frame 4 = 0).
  { unfold be16_at, long_frame. rewrite !nth_repeat. reflexivity. }
  split; [exact Decode_short|].
  split; [reflexivity|]. split; [reflexivity|].
  split; [|split].
  - unfold len. rewrite L. lia.
  - exact B.
  - rewrite Decode_cases by (rewrite L; lia).
    rewrite B. unfold len, byte_at. rewrite L.
    unfold long_frame at 1. rewrite nth_repeat.
    reflexivity.
Qed.

(** ** Transaction verifier *)

Lemma Verify_cases (request response : list byte) :
  (7 <= length request)%nat -> (7 <= length response)%nat ->
  Verify request response =
  Done (option_map (fun f => mismatch f request response)
          (first_mismatch request response)).
Proof.
  intros Hq Hr.
  destruct request as [|q0 [|q1 [|q2 [|q3 [|q4 [|q5 [|q6 qtl]]]]]]];
    try (simpl in Hq; lia).
  destruct response as [|r0 [|r1 [|r2 [|r3 [|r4 [|r5 [|r6 rtl]]]]]]];
    try (simpl in Hr; lia).
  unfold Verify, first_mismatch, mismatch, slice_from, index, be16_at, byte_at.
  cbn [length Nat.leb skipn nth nth_error go_bind].
  rewrite !Uint16_cons. cbn [go_bind].
  destruct (negb (256 * byte_to_Z r0 + byte_to_Z r1
                  =? 256 * byte_to_Z q0 + byte_to_Z q1)); [reflexivity|].
  cbn [go_bind].
  destruct (negb (256 * byte_to_Z r2 + byte_to_Z r3
                  =? 256 * byte_to_Z q2 + byte_to_Z q3)); [reflexivity|].
  destruct (negb (Byte.eqb r6 q6)); reflexivity.
Qed.

Lemma first_mismatch_None (request response : list byte) :
  first_mismatch request response = None <->
  be16_at request 0 = be16_at response 0 /\
  be16_at request 2 = be16_at response 2 /\
  byte_at request 6 = byte_at response 6.
Proof.
  unfold first_mismatch.
  destruct (Z.eqb_spec (be16_at response 0) (be16_at request 0)) as [E0|N0];
    cbn [negb]; [|split; [discriminate|intros (H & _); congruence]].
  destruct (Z.eqb_spec (be16_at response 2) (be16_at request 2)) as [E2|N2];
    cbn [negb]; [|split; [discriminate|intros (_ & H & _); congruence]].
  destruct (Byte.eqb (byte_at response 6) (byte_at request 6)) eqn:E6;
    cbn [negb].
  - apply Byte.byte_dec_bl in E6. split; [auto|reflexivity].
  - apply Byte.eqb_false in E6.
    split; [discriminate|intros (_ & _ & H); congruence].
Qed.

(** C5: for frames of at least 7 bytes each, [Verify] returns without
    panicking; it returns no error if and only if the transaction ids
    (offset 0), the protocol ids (offset 2) and the unit ids (offset 6)
    agree; otherwise it returns exactly one error, the one for the first
    disagreeing field in the order transaction id, protocol id, unit id,
    and the message of that error names that field and no other. *)
Theorem Verify_first_mismatch (request response : list byte) :
  (7 <= length request)%nat -> (7 <= length response)%nat ->
  (Verify request response = Done None <->
     be16_at request 0 = be16_at response 0 /\
     be16_at request 2 = be16_at response 2 /\
     byte_at request 6 = byte_at response 6) /\
  (forall f, first_mismatch request response = Some f ->
     Verify request response = Done (Some (mismatch f request response)) /\
     named_fields (mismatch f request response) = [f]) /\
  (first_mismatch request response = None ->
     Verify request response = Done None).
Proof.
  intros Hq Hr. rewrite (Verify_cases _ _ Hq Hr).
  split; [|split].
  - rewrite <- first_mismatch_None.
    destruct (first_mismatch request response); cbn [option_map];
      split; intros H; congruence.
  - intros f ->. split; [reflexivity|]. destruct f; reflexivity.
  - intros ->. reflexivity.
Qed.

Lemma Verify_first_mismatch_witness :
  Verify [x00; x01; x00; x00; x00; x06; x11; x03; x00; x6b; x00; x03]
         [x00; x01; x00; x00; x00; x05; x12; x03; x02; x00; x01]
  = Done (Some (Errorf unit_id_format [18; 17])).
Proof.
  pose proof (Verify_first_mismatch
    [x00; x01; x00; x00; x00; x06; x11; x03; x00; x6b; x00; x03]
    [x00; x01; x00; x00; x00; x05; x12; x03; x02; x00; x01]
    ltac:(simpl; lia) ltac:(simpl; lia)) as (_ & H & _).
  exact (proj1 (H FUnitId eq_refl)).
Defined.

(** C10: for frames of at least 7 bytes each, the result of [Verify]
    is a function of the first 7 bytes of each frame: two runs whose
    requests agree on bytes 0 to 6 and whose responses agree on bytes 0 to
    6 return the same result, whatever follows from offset 7 on and
    whatever the lengths. *)
Theorem Verify_depends_on_header_only
    (request response request' response' : list byte) :
  (7 <= length request)%nat -> (7 <= length response)%nat ->
  (7 <= length request')%nat -> (7 <= length response')%nat ->
  firstn 7 request = firstn 7 request' ->
  firstn 7 response = firstn 7 response' ->
  Verify request response = Verify request' response'.
Proof.
  intros Hq Hr Hq' Hr' Eq Er.
  destruct request as [|q0 [|q1 [|q2 [|q3 [|q4 [|q5 [|q6 qtl]]]]]]];
    try (simpl in Hq; lia).
  destruct response as [|r0 [|r1 [|r2 [|r3 [|r4 [|r5 [|r6 rtl]]]]]]];
    try (simpl in Hr; lia).
  destruct request' as [|q0' [|q1' [|q2' [|q3' [|q4' [|q5' [|q6' qtl']]]]]]];
    try (simpl in Hq'; lia).
  destruct response' as [|r0' [|r1' [|r2' [|r3' [|r4' [|r5' [|r6' rtl']]]]]]];
    try (simpl in Hr'; lia).
  cbn [firstn] in Eq, Er. injection Eq as -> -> -> -> -> -> ->.
  injection Er as -> -> -> -> -> -> ->.
  reflexivity.
Qed.

Lemma Verify_depends_on_header_only_witness :
  Verify [x00; x01; x00; x00; x00; x06; x11; x03; x00; x6b; x00; x03]
         [x00; x02; x00; x00; x00; x05; x11; x03; x02; x00; x01]
  = Verify [x00; x01; x00; x00; x00; x06; x11]
           [x00; x02; x00; x00; x00; x05; x11; xff].
Proof.
  apply Verify_depends_on_header_only; simpl; try lia; reflexivity.
Defined.

(** ** Error mapper *)

(** C9: [FailureCodeToError] is a total function of the code alone: codes
    1, 2, 3, 4, 5, 6 and 10 map to the illegal-function,
    illegal-data-address, illegal-data-value, slave-device-failure,
    acknowledge, slave-busy and gateway-path-unavailable errors; every
    other integer, 77 for one, maps to the unknown-exception error, which
    is none of the seven. *)
Theorem FailureCodeToError_table :
  FailureCodeToError 1 = ErrorIllegalFunction /\
  FailureCodeToError 2 = ErrorIllegalDataAddress /\
  FailureCodeToError 3 = ErrorIllegalDataValue /\
  FailureCodeToError 4 = ErrorSlaveDeviceFailure /\
  FailureCodeToError 5 = ErrorAcknowledge /\
  FailureCodeToError 6 = ErrorSlaveIsBusy /\
  FailureCodeToError 10 = ErrorGatewayPathUnavailable /\
  FailureCodeToError 77 = ErrorUnknown /\
  (forall code : Z,
     ~ In code [1; 2; 3; 4; 5; 6; 10] ->
     FailureCodeToError code = ErrorUnknown) /\
  (forall code : Z,
     In code [1; 2; 3; 4; 5; 6; 10] ->
     FailureCodeToError code <> ErrorUnknown) /\
  NoDup [ErrorIllegalFunction; ErrorIllegalDataAddress; ErrorIllegalDataValue;
         ErrorSlaveDeviceFailure; ErrorAcknowledge; ErrorSlaveIsBusy;
         ErrorGatewayPathUnavailable; ErrorUnknown].
Proof.
  repeat match goal with |- _ /\ _ => split end; try reflexivity.
  - intros code H. unfold FailureCodeToError.
    unfold ExcIllegalFunction, ExcIllegalDataAdr, ExcIllegalDataVal,
      ExcSlaveDeviceFailure, ExcAcknowledge, ExcSlaveIsBusy,
      ExcGatePathUnavailable.
    repeat match goal with
    | |- context [code =? ?n] =>
        destruct (Z.eqb_spec code n);
          [exfalso; apply H; subst code; simpl; tauto|]
    end.
    reflexivity.
  - intros code H. simpl in H.
    repeat (destruct H as [<-|H]; [discriminate|]). contradiction.
  - repeat (constructor;
            [simpl; intros H;
             repeat (destruct H as [H|H]; [discriminate H|]);
             contradiction|]).
    constructor.
Qed.

(** ** Checksum engine *)

Lemma CRC_PushBytes_cons (crc : Z) (b : byte) (bs : list byte) :
  CRC.PushBytes crc (b :: bs) = CRC.PushBytes (CRC.pushByte crc b) bs.
Proof. reflexivity. Qed.



(** ** Transport session *)

Section Transport.

(** The statements of this section hold against every environment. *)
Variable E : Env.

Lemma run_bind {A B : Type} (p : prog A) (f : A -> prog B)
    (w : world E) :
  run E (bind p f) w =
  match outcome (run E p w) with
  | Done a =>
      let x := run E (f a) (snd (run E p w)) in
      (outcome x, trace (run E p w) ++ trace x, snd x)
  | Panicked => (Panicked, trace (run E p w), snd (run E p w))
  end.
Proof.
  revert w. induction p as [a| |c k IH]; intros w.
  - cbn. destruct (run E (f a) w) as [[o tr] w']. reflexivity.
  - reflexivity.
  - cbn. destruct (reply E c w) as [r w1]. rewrite IH.
    unfold outcome, trace. cbn.
    destruct (fst (fst (run E (k r) w1))); reflexivity.
Qed.

Lemma run_deferred {A B C : Type} (body : prog A)
    (cleanup : prog B) (ret : A -> B -> C) (w : world E) :
  let x := run E body w in
  let y := run E cleanup (snd x) in
  run E (deferred body cleanup ret) w =
  (match outcome x, outcome y with
   | Done a, Done b => Done (ret a b)
   | _, _ => Panicked
   end,
   trace x ++ trace y, snd y).
Proof.
  revert w. induction body as [a| |c k IH]; intros w.
  - cbn. rewrite run_bind.
    destruct (run E cleanup w) as [[[b|] tr] w']; cbn;
      rewrite ?app_nil_r; reflexivity.
  - cbn. rewrite run_bind.
    destruct (run E cleanup w) as [[[b|] tr] w']; cbn;
      rewrite ?app_nil_r; reflexivity.
  - cbn. destruct (reply E c w) as [r w1]. cbn. rewrite IH. reflexivity.
Qed.

Lemma header_field (hdr : list byte) :
  length hdr = 7%nat ->
  go_bind (slice_from (fill (make MaxLength) 0 HeaderSize hdr) 4) Uint16
  = Done (be16_at hdr 4).
Proof.
  intros H.
  destruct hdr as [|h0 [|h1 [|h2 [|h3 [|h4 [|h5 [|h6 [|h7 tl]]]]]]]];
    try discriminate H.
  unfold fill, make, MaxLength, HeaderSize, slice_from.
  cbn [firstn length Nat.add app repeat skipn Nat.leb go_bind].
  apply Uint16_cons.
Qed.

Ltac reduce_run :=
  cbn [run bind ask lift logf trace outcome fst snd record answer
       header after_header] in *.

(** Take the environment's answer to the next call, in each of its
    shapes. *)
Ltac answer_next :=
  match goal with
  | |- context [reply ?E ?c ?w] =>
      let r := fresh "r" in
      let w' := fresh "w" in
      destruct (reply E c w) as [r w'];
      lazymatch c with
      | SetDeadline _ _ => destruct r as [?|]
      | SetReadDeadline _ _ => destruct r as [?|]
      | Close _ => destruct r as [?|]
      | ConnWrite _ _ => destruct r as [? [?|]]
      | ReadFull _ _ => destruct r as [? [?|]]
      | ConnRead _ _ => destruct r as [? [?|]]
      | Dial _ _ _ => destruct r as [[?|] [?|]]
      | Printf _ _ => destruct r
      | _ => idtac
      end;
      reduce_run
  end.

Lemma flush_drains (w : world E) (c : ModbusTcpClient)
    (k : conn) (b : list byte) :
  Conn c = Some k ->
  outcome (run E (flush c b) w) <> Panicked /\
  drain k (length b) (trace (run E (flush c b) w)) /\
  existsb is_read_full (trace (run E (flush c b) w)) = false /\
  (length (trace (run E (flush c b) w)) <= 3)%nat.
Proof.
  intros Hc. unfold flush. rewrite Hc. reduce_run.
  do 2 answer_next; [|answer_next]; cbn; repeat split; try discriminate; lia.
Qed.

Lemma header_buffer_length (hdr : list byte) :
  length hdr = 7%nat ->
  length (fill (make MaxLength) 0 HeaderSize hdr) = 260%nat.
Proof.
  intros H.
  destruct hdr as [|h0 [|h1 [|h2 [|h3 [|h4 [|h5 [|h6 [|h7 tl]]]]]]]];
    try discriminate H.
  reflexivity.
Qed.

Lemma exchange_bad_length (w : world E) (c : ModbusTcpClient)
    (k : conn) (request hdr : list byte) (k' : conn) (n : nat) :
  Conn c = Some k ->
  header (trace (run E (exchange c request) w))
    = Some (EReadFull k' n hdr None) ->
  length hdr = 7%nat ->
  be16_at hdr 4 = 0 \/ 260 < be16_at hdr 4 + 6 ->
  k' = k /\ n = 7%nat /\
  exists e,
    outcome (run E (exchange c request) w) = Done ([], Some e) /\
    framing_error e = true /\
    drain k 260 (after_header (trace (run E (exchange c request) w))) /\
    existsb is_read_full
      (after_header (trace (run E (exchange c request) w))) = false.
Proof.
  intros Hc Hh Hl Hb. unfold exchange, logf in *. rewrite Hc in *.
  destruct (Logger c); reduce_run; [answer_next|].
  all: do 2 answer_next; [discriminate Hh|].
  all: answer_next; [discriminate Hh|].
  all: answer_next; [discriminate Hh|].
  all: injection Hh as <- <- ->.
  all: rewrite (header_field _ Hl) in *; reduce_run.
  all: split; [reflexivity|split; [reflexivity|]].
  all: match goal with
       | |- context [run _ _ ?w] =>
           pose proof (flush_drains w c k
                         (fill (make MaxLength) 0 HeaderSize hdr) Hc)
             as (Hp & Hd & Hr & _)
       end.
  all: rewrite (header_buffer_length _ Hl) in Hd.
  all: assert (Hz : (be16_at hdr 4 <=? 0) = true \/
                    (be16_at hdr 4 <=? 0) = false /\
                    (be16_at hdr 4 >? Z.of_nat (MaxLength - (HeaderSize - 1)))
                    = true)
         by (unfold MaxLength, HeaderSize; cbn [Nat.sub Z.of_nat];
             destruct Hb as [Hb|Hb];
             [left; rewrite Hb; reflexivity
             |right; split; [apply Z.leb_gt|apply Z.gtb_gt]; lia]).
  all: destruct Hz as [Hz|[Hz Hz']]; rewrite Hz; try rewrite Hz'.
  all: rewrite run_bind.
  all: match goal with
       | |- context [run ?E0 (flush ?c0 ?b) ?w] =>
           destruct (run E0 (flush c0 b) w) as [[[err|] tr] wf]
       end; [|exfalso; apply Hp; reflexivity].
  all: cbn [outcome trace fst snd run app] in *.
  all: eexists; split; [reflexivity|].
  all: rewrite app_nil_r.
  all: repeat split; assumption.
Qed.

Lemma header_app (tr1 tr2 : list event) :
  header (tr1 ++ tr2) =
  match header tr1 with
  | Some e => Some e
  | None => header tr2
  end.
Proof.
  induction tr1 as [|e tr1 IH]; [reflexivity|].
  destruct e; cbn [app header]; try exact IH; reflexivity.
Qed.

Lemma after_header_app (tr1 tr2 : list event) :
  header tr1 <> None ->
  after_header (tr1 ++ tr2) = after_header tr1 ++ tr2.
Proof.
  induction tr1 as [|e tr1 IH]; intros H; [contradiction H; reflexivity|].
  destruct e; cbn [app header after_header] in *; try (apply IH; exact H);
    reflexivity.
Qed.

Lemma drain_app (k : conn) (n : nat) (tr1 tr2 : list event) :
  drain k n tr1 -> drain k n (tr1 ++ tr2).
Proof.
  unfold drain. intros H.
  destruct tr1 as [|[] [|[] tr1]]; try contradiction.
  destruct err as [e|]; [exact H|].
  destruct tr1 as [|[] tr1]; try contradiction. exact H.
Qed.

Lemma Disconnect_run (w : world E) (c : ModbusTcpClient) :
  exists d,
    outcome (run E (Disconnect c) w) = Done d /\
    header (trace (run E (Disconnect c) w)) = None /\
    existsb is_read_full (trace (run E (Disconnect c) w)) = false.
Proof.
  unfold Disconnect. destruct (Conn c) as [k|]; reduce_run.
  - answer_next; eexists; repeat split.
  - eexists; repeat split.
Qed.

(** C4: whenever the 7-byte header that [Send] reads declares a length of
    zero, or a length that would make the whole frame longer than 260
    bytes (a length above 254), [Send] returns, with no response and a
    framing error, after the drain of [flush] (an expired read deadline
    and, unless setting it failed, one read into the 260-byte buffer);
    it makes no further [io.ReadFull], so it never asks for the body. *)
Theorem Send_rejects_bad_length (w : world E)
    (c : ModbusTcpClient) (request hdr : list byte) (k : conn) (n : nat) :
  header (trace (run E (Send c request) w)) = Some (EReadFull k n hdr None) ->
  length hdr = 7%nat ->
  be16_at hdr 4 = 0 \/ 260 < be16_at hdr 4 + 6 ->
  exists c' e,
    outcome (run E (Send c request) w) = Done (c', ([], Some e)) /\
    framing_error e = true /\
    drain k 260 (after_header (trace (run E (Send c request) w))) /\
    existsb is_read_full (after_header (trace (run E (Send c request) w)))
    = false.
Proof.
  intros Hh Hl Hb. unfold Send in *.
  destruct (Conn c) as [k0|] eqn:Hc.
  - rewrite run_bind in *.
    assert (Hx : header (trace (run E (exchange c request) w))
                 = Some (EReadFull k n hdr None)).
    { destruct (outcome (run E (exchange c request) w));
        cbn [run trace outcome fst snd] in Hh;
        rewrite ?app_nil_r in Hh; exact Hh. }
    destruct (exchange_bad_length w c k0 request hdr k n Hc Hx Hl Hb)
      as (-> & -> & e & Ho & Hf & Hd & Hr).
    rewrite Ho. cbn [run trace outcome fst snd]. rewrite app_nil_r.
    exists c, e. repeat split; assumption.
  - unfold Connect in *. reduce_run. answer_next;
      try (cbn [header] in Hh; discriminate Hh).
    + (* the dial gave a connection *)
      rewrite run_deferred in *. cbn [trace outcome fst snd header] in *.
      match type of Hh with
      | context [run E (exchange ?c1 request) ?w1] =>
          set (x := run E (exchange c1 request) w1) in *;
          destruct (Disconnect_run (snd x) c1) as (d & Hd1 & Hd2 & Hd3);
          set (y := run E (Disconnect c1) (snd x)) in *;
          assert (Hx : header (trace x) = Some (EReadFull k n hdr None))
            by (rewrite header_app, Hd2 in Hh;
                destruct (header (trace x)); [exact Hh|discriminate Hh]);
          destruct (exchange_bad_length w1 c1 c0 request hdr k n
                      eq_refl Hx Hl Hb)
            as (-> & -> & e & Ho & Hf & Hd & Hr)
      end.
      fold x in Ho, Hd, Hr. rewrite Ho, Hd1.
      rewrite after_header_app by (rewrite Hx; discriminate).
      exists (fst d), e. repeat split.
      * exact Hf.
      * apply drain_app. exact Hd.
      * rewrite existsb_app, Hr, Hd3. reflexivity.
    + (* the dial gave neither a connection nor an error *)
      exfalso. rewrite run_deferred in Hh.
      cbn [trace outcome fst snd header] in Hh.
      rewrite header_app in Hh.
      match type of Hh with
      | context [run E (Disconnect ?c1) ?w1] =>
          destruct (Disconnect_run w1 c1) as (d & _ & Hd2 & _);
          rewrite Hd2 in Hh
      end.
      unfold exchange, logf in Hh. cbn [Conn set_Conn Logger] in Hh.
      revert Hh. destruct (Timeout c <=? 0); cbn [Logger set_Timeout];
        destruct (Logger c); reduce_run; try answer_next; discriminate.
Qed.

(** What [Connect] does, whatever the environment: one dial, on network
    "tcp", to the address field alone, bounded by the configured timeout
    or, when that is not positive, by 5000 ms; the handle the dial returns
    is stored and its error returned. *)
Lemma Connect_run (w : world E) (c : ModbusTcpClient) :
  let timeout :=
    if Timeout c <=? 0 then 5000 * Millisecond else Timeout c in
  let r := fst (reply E (Dial "tcp" (IpAddress c) timeout) w) in
  run E (Connect c) w =
  (Done (set_Conn (set_Timeout c timeout) (fst r), snd r),
   [EDial "tcp" (IpAddress c) timeout (fst r) (snd r)],
   snd (reply E (Dial "tcp" (IpAddress c) timeout) w)).
Proof.
  unfold Connect, TimeoutMillis.
  destruct (Timeout c <=? 0) eqn:T; reduce_run;
    cbn [IpAddress Timeout set_Timeout].
  - destruct (reply E _ w) as [[ko err] w1]. reflexivity.
  - destruct (reply E _ w) as [[ko err] w1]. cbn [fst snd].
    destruct c; reflexivity.
Qed.

(** What [Disconnect] does, whatever the environment. *)
Lemma Disconnect_cases (w : world E) (c : ModbusTcpClient) :
  run E (Disconnect c) w =
  match Conn c with
  | None => (Done (c, None), [], w)
  | Some k =>
      let r := fst (reply E (Close k) w) in
      (Done (match r with
             | Some e => (c, Some e)
             | None => (set_Conn c None, None)
             end),
       [EClose k r], snd (reply E (Close k) w))
  end.
Proof.
  unfold Disconnect. destruct (Conn c) as [k|]; [|reflexivity].
  reduce_run. destruct (reply E (Close k) w) as [[e|] w1]; reflexivity.
Qed.

(** X2: whatever the environment, [Connect] makes exactly one call, a dial
    on network "tcp" to the address field of the session, bounded by the
    configured timeout or, when that is not positive, by 5000 ms, which it
    then stores; it stores the handle the dial returned and returns the
    dial's error, so a dial that fails with no handle leaves the session
    without one; no other field of the session changes, the logger
    included. *)
Theorem Connect_dials_address (w : world E) (c : ModbusTcpClient) :
  exists timeout handle err c',
    timeout = (if Timeout c <=? 0 then 5000 * 1000000 else Timeout c) /\
    trace (run E (Connect c) w)
    = [EDial "tcp" (IpAddress c) timeout handle err] /\
    outcome (run E (Connect c) w) = Done (c', err) /\
    Timeout c' = timeout /\
    Conn c' = handle /\
    IpAddress c' = IpAddress c /\ Port c' = Port c /\
    SlaveId c' = SlaveId c /\ TransactionId c' = TransactionId c /\
    Logger c' = Logger c /\
    c' = set_Conn (set_Timeout c timeout) handle.
Proof.
  pose proof (Connect_run w c) as R. cbv zeta in R. rewrite R.
  do 4 eexists. repeat split.
Qed.

(** X3: whatever the environment, [Disconnect] on a session without a
    connection makes no call, returns no error and leaves the session as
    it was; on a session holding a connection it makes exactly one call,
    the close of that connection, and when the close reports no error the
    session ends without a connection and no error is returned. *)
Theorem Disconnect_closes (w : world E) (c : ModbusTcpClient) :
  (Conn c = None ->
   run E (Disconnect c) w = (Done (c, None), [], w)) /\
  (forall k, Conn c = Some k ->
     exists r,
       trace (run E (Disconnect c) w) = [EClose k r] /\
       (r = None ->
        outcome (run E (Disconnect c) w) = Done (set_Conn c None, None))).
Proof.
  rewrite Disconnect_cases. split.
  - intros ->. reflexivity.
  - intros k ->. eexists. split; [reflexivity|].
    cbn [fst]. intros ->. reflexivity.
Qed.

End Transport.

Lemma Send_rejects_bad_length_witness :
  exists c' e,
    outcome (run script (Send joined_client read_holding)
               (peer (header_length_255 ++ [x03; x02])))
    = Done (c', ([], Some e)) /\
    framing_error e = true /\
    drain 1%nat 260
      (after_header
         (trace (run script (Send joined_client read_holding)
                   (peer (header_length_255 ++ [x03; x02]))))) /\
    existsb is_read_full
      (after_header
         (trace (run script (Send joined_client read_holding)
                   (peer (header_length_255 ++ [x03; x02])))))
    = false.
Proof.
  apply (Send_rejects_bad_length script
           (peer (header_length_255 ++ [x03; x02]))
           joined_client read_holding header_length_255 1%nat 7%nat).
  - reflexivity.
  - reflexivity.
  - right. vm_compute. reflexivity.
Defined.

(** [Send] on a header that declares length zero, run against the
    scripted peer: the trace ends with the drain and the close of the
    connection [Send] opened itself. *)
Example Send_length_zero_run :
  run script (Send joined_client read_holding)
    (peer (header_length_0 ++ [x03]))
  = (Done (set_Timeout joined_client 5000000000,
           ([], Some (Errorf zero_length_format [0]))),
     [EDial "tcp" "127.0.0.1:502" 5000000000 (Some 1%nat) None;
      ENow 0; ESetDeadline 1%nat 5000000000 None;
      EWrite 1%nat read_holding 12 None;
      EReadFull 1%nat 7 header_length_0 None;
      ENow 0; ESetReadDeadline 1%nat 0 None;
      ERead 1%nat 260 [x03] None;
      EClose 1%nat None],
     peer []).
Proof. reflexivity. Qed.

(** C7, at the failing input: whatever the environment, the one call of
    [Connect] is a dial to the address field alone; so for the client made
    from address "127.0.0.1" and port 502, with a server listening on
    127.0.0.1:502, [Connect] dials "127.0.0.1", not host:port, and is
    refused; the default timeout of 5000 ms has been applied and the
    session holds no connection. *)
Theorem Connect_ignores_Port :
  (forall (E : Env) (w : world E) (c : ModbusTcpClient),
     exists timeout handle err,
       trace (run E (Connect c) w)
       = [EDial "tcp" (IpAddress c) timeout handle err]) /\
  host_port plant_client = "127.0.0.1:502" /\
  listening (peer []) = host_port plant_client /\
  run script (Connect plant_client) (peer [])
  = (Done (set_Timeout plant_client (5000 * Millisecond), Some refused),
     [EDial "tcp" "127.0.0.1" (5000 * Millisecond) None (Some refused)],
     peer []).
Proof.
  split; [|repeat split].
  intros E w c. pose proof (Connect_run E w c) as R. cbv zeta in R.
  rewrite R. do 3 eexists. reflexivity.
Qed.

(** C6, at the failing input: whatever the environment, when the close
    of the held connection reports an error [Disconnect] returns that
    error and leaves the session as it was, the connection still held; so
    it does against the scripted peer whose close fails. *)
Theorem Disconnect_close_error_keeps_handle :
  (forall (E : Env) (w : world E) (c : ModbusTcpClient) (k : conn)
          (e : error),
     Conn c = Some k ->
     fst (reply E (Close k) w) = Some e ->
     outcome (run E (Disconnect c) w) = Done (c, Some e)) /\
  (let c := set_Conn joined_client (Some 1%nat) in
   run script (Disconnect c) peer_failing_close
   = (Done (c, Some close_failed), [EClose 1%nat (Some close_failed)],
      peer_failing_close) /\
   Conn c = Some 1%nat).
Proof.
  split; [|split; reflexivity].
  intros E w c k e Hc Hr. rewrite Disconnect_cases, Hc.
  cbv zeta. rewrite Hr. reflexivity.
Qed.

(** ** Further properties of the code *)

(** X1: on a frame of at least 6 bytes [Decode] never panics; it returns
    the length-mismatch error, and no PDU, exactly when the frame is
    shorter than 8 bytes or [len(frame) - 7] differs from the 16-bit value
    of [length - 1]; otherwise it returns, with no error, the byte at
    offset 7 as function code and the bytes from offset 8 on as payload. *)
Theorem Decode_on_readable_length (adu : list byte) :
  (6 <= length adu)%nat ->
  let mismatch_error :=
    Errorf length_mismatch_format
      [(be16_at adu 4 - 1) mod 65536; len adu - 7] in
  (len adu < 8 \/ len adu - 7 <> (be16_at adu 4 - 1) mod 65536 ->
   Decode adu = Done (None, Some mismatch_error) /\
   framing_error mismatch_error = true) /\
  (8 <= len adu /\ len adu - 7 = (be16_at adu 4 - 1) mod 65536 ->
   Decode adu
   = Done (Some {| FunctionCode := byte_at adu 7; Data := skipn 8 adu |},
           None)).
Proof.
  intros H. cbv zeta. rewrite (Decode_cases adu H). unfold uint16.
  split.
  - intros C. split; [|reflexivity].
    replace ((len adu - 7 <=? 0)
             || negb (len adu - 7 =? (be16_at adu 4 - 1) mod 65536))
      with true; [reflexivity|].
    symmetry. apply orb_true_iff.
    destruct C as [C|C]; [left; apply Z.leb_le; lia|right].
    apply negb_true_iff, Z.eqb_neq. exact C.
  - intros [C1 C2].
    replace ((len adu - 7 <=? 0)
             || negb (len adu - 7 =? (be16_at adu 4 - 1) mod 65536))
      with false; [reflexivity|].
    symmetry. apply orb_false_iff. split; [apply Z.leb_gt; lia|].
    apply negb_false_iff, Z.eqb_eq. exact C2.
Qed.

Lemma Decode_on_readable_length_witness :
  Decode [x00; x01; x00; x00; x00; x05; x11; x03; x02; x00; x2a]
  = Done (Some {| FunctionCode := x03; Data := [x02; x00; x2a] |}, None).
Proof.
  apply (Decode_on_readable_length
           [x00; x01; x00; x00; x00; x05; x11; x03; x02; x00; x2a]).
  - simpl. lia.
  - vm_compute. split; [discriminate|reflexivity].
Defined.

(** ** Composition of the codec and the verifier *)

Lemma uint16_succ (z n : Z) : uint16 (uint16 (z + 1) + n) = uint16 (z + (n + 1)).
Proof.
  unfold uint16. rewrite Z.add_mod_idemp_l by lia. f_equal. lia.
Qed.

(** X4: when a list of PDUs is encoded one after another on the same
    client, no call fails, one frame is built per PDU, and the frame at
    position [i] (from 0) carries the transaction id
    [(previous counter + i + 1) mod 65536]: each call advances the id by
    exactly one, wrapping from 65535 to 0; after a non-empty list the
    stored counter is the id of the last frame. *)
Theorem EncodeEach_transaction_ids (c : ModbusTcpClient) (pdus : list Pdu) :
  exists c' adus,
    EncodeEach c pdus = Done (c', adus) /\
    length adus = length pdus /\
    (forall i : nat, (i < length pdus)%nat ->
       be16_at (nth i adus []) 0
       = (TransactionId c + Z.of_nat i + 1) mod 65536) /\
    (pdus <> [] ->
     TransactionId c' = (TransactionId c + len pdus) mod 65536).
Proof.
  revert c. induction pdus as [|pdu rest IH]; intros c.
  - exists c, []. repeat split; try reflexivity.
    + intros i Hi. simpl in Hi. lia.
    + intros H. contradiction H. reflexivity.
  - cbn [EncodeEach]. rewrite Encode_frame. cbn [go_bind fst snd].
    set (tid := uint16 (TransactionId c + 1)).
    destruct (IH (set_TransactionId c tid)) as (c' & adus & E & L & I & T).
    rewrite E. cbn [go_bind fst snd].
    exists c', (frame_of tid (SlaveId c) pdu :: adus).
    split; [reflexivity|]. split; [simpl; lia|]. split.
    + intros [|i] Hi.
      * cbn [nth].
        destruct (frame_of_fields tid (SlaveId c) pdu (uint16_range _))
          as (Ht & _).
        rewrite Ht. unfold tid, uint16. f_equal. lia.
      * cbn [nth]. rewrite I by (simpl in Hi; lia).
        cbn [TransactionId set_TransactionId]. unfold tid.
        fold (uint16 (uint16 (TransactionId c + 1) + Z.of_nat i + 1)).
        rewrite <- Z.add_assoc, uint16_succ. unfold uint16. f_equal. lia.
    + intros _. destruct rest as [|pdu' rest'].
      * cbn [EncodeEach] in E. injection E as <- _.
        cbn [TransactionId set_TransactionId]. unfold tid, uint16, len.
        f_equal.
      * rewrite T by discriminate.
        cbn [TransactionId set_TransactionId]. unfold tid.
        fold (uint16 (uint16 (TransactionId c + 1) + len (pdu' :: rest'))).
        rewrite uint16_succ. unfold uint16, len. f_equal.
        cbn [length]. lia.
Qed.

(** X5: for every client and PDU, [Decode] of the frame [Encode] builds
    returns the PDU itself exactly as long as the payload has at most
    65534 bytes; for a longer payload it returns the length-mismatch
    error. *)
Theorem Decode_Encode_threshold (c : ModbusTcpClient) (pdu : Pdu) :
  exists c' adu,
    Encode c pdu = Done (c', (adu, None)) /\
    (len (Data pdu) <= 65534 -> Decode adu = Done (Some pdu, None)) /\
    (65534 < len (Data pdu) ->
     Decode adu
     = Done (None,
             Some (Errorf length_mismatch_format
                     [(len (Data pdu) + 1) mod 65536; len (Data pdu) + 1]))).
Proof.
  set (tid := uint16 (TransactionId c + 1)).
  exists (set_TransactionId c tid), (frame_of tid (SlaveId c) pdu).
  split; [apply Encode_frame|].
  destruct (frame_of_fields tid (SlaveId c) pdu (uint16_range _))
    as (_ & _ & Hl & _ & Hf & Hd).
  rewrite Decode_cases by (rewrite frame_of_length; lia).
  rewrite Hl, Hf, Hd.
  assert (Hn : len (frame_of tid (SlaveId c) pdu) - 7 = len (Data pdu) + 1).
  { unfold len. rewrite frame_of_length. lia. }
  rewrite Hn.
  assert (Hu : uint16 (uint16 (2 + len (Data pdu)) - 1)
               = (len (Data pdu) + 1) mod 65536).
  { unfold uint16. rewrite Zminus_mod_idemp_l. f_equal. lia. }
  rewrite Hu.
  assert (Hp : 0 <= len (Data pdu)) by (unfold len; lia).
  replace (len (Data pdu) + 1 <=? 0) with false
    by (symmetry; apply Z.leb_gt; lia).
  cbn [orb]. split; intros H.
  - rewrite Z.mod_small by lia. rewrite Z.eqb_refl. cbn [negb].
    destruct pdu; reflexivity.
  - replace (len (Data pdu) + 1 =? (len (Data pdu) + 1) mod 65536)
      with false; [reflexivity|].
    symmetry. apply Z.eqb_neq.
    pose proof (Z.mod_pos_bound (len (Data pdu) + 1) 65536). lia.
Qed.

(** X6: for a request built by [Encode] and any response of at least 7
    bytes, [Verify] returns no error exactly when the response carries
    the counter the call stored, protocol id 0 and the client's unit id;
    the length field and everything from offset 7 on play no part. *)
Theorem Verify_Encode_accepts
    (c : ModbusTcpClient) (pdu : Pdu) (response : list byte) :
  (7 <= length response)%nat ->
  exists c' request,
    Encode c pdu = Done (c', (request, None)) /\
    (Verify request response = Done None <->
       be16_at response 0 = TransactionId c' /\
       be16_at response 2 = 0 /\
       byte_at response 6 = SlaveId c).
Proof.
  intros Hr.
  set (tid := uint16 (TransactionId c + 1)).
  exists (set_TransactionId c tid), (frame_of tid (SlaveId c) pdu).
  split; [apply Encode_frame|].
  destruct (frame_of_fields tid (SlaveId c) pdu (uint16_range _))
    as (Ht & Hp & _ & Hu & _).
  rewrite Verify_cases by (rewrite ?frame_of_length; lia).
  cbn [TransactionId set_TransactionId].
  split.
  - intros H.
    destruct (first_mismatch (frame_of tid (SlaveId c) pdu) response) eqn:F;
      [discriminate H|].
    apply first_mismatch_None in F. rewrite Ht, Hp, Hu in F.
    destruct F as (F0 & F2 & F6). repeat split; congruence.
  - intros (H0 & H2 & H6).
    assert (F : first_mismatch (frame_of tid (SlaveId c) pdu) response
                = None).
    { apply first_mismatch_None. rewrite Ht, Hp, Hu.
      repeat split; congruence. }
    rewrite F. reflexivity.
Qed.

Lemma Verify_Encode_accepts_witness :
  exists c' request,
    Encode plant_client {| FunctionCode := x03; Data := [x00; x6b] |}
      = Done (c', (request, None)) /\
    (Verify request [x00; x01; x00; x00; x00; x03; x00; x03; x2a] = Done None
     <-> be16_at [x00; x01; x00; x00; x00; x03; x00; x03; x2a] 0
         = TransactionId c' /\
         be16_at [x00; x01; x00; x00; x00; x03; x00; x03; x2a] 2 = 0 /\
         byte_at [x00; x01; x00; x00; x00; x03; x00; x03; x2a] 6
         = SlaveId plant_client).
Proof.
  apply (Verify_Encode_accepts plant_client
           {| FunctionCode := x03; Data := [x00; x6b] |}
           [x00; x01; x00; x00; x00; x03; x00; x03; x2a]).
  simpl. lia.
Defined.

(** X7: the frames of two consecutive [Encode] calls on the same client
    never verify against each other: the second carries the id of the
    first plus one modulo 65536, and [Verify] returns the transaction id
    error. *)
Theorem Verify_rejects_next_request (c : ModbusTcpClient) (p1 p2 : Pdu) :
  exists c1 f1 c2 f2,
    Encode c p1 = Done (c1, (f1, None)) /\
    Encode c1 p2 = Done (c2, (f2, None)) /\
    be16_at f2 0 = (be16_at f1 0 + 1) mod 65536 /\
    be16_at f2 0 <> be16_at f1 0 /\
    Verify f1 f2
    = Done (Some (Errorf transaction_id_format [be16_at f2 0; be16_at f1 0])).
Proof.
  set (t1 := uint16 (TransactionId c + 1)).
  set (c1 := set_TransactionId c t1).
  set (t2 := uint16 (TransactionId c1 + 1)).
  exists c1, (frame_of t1 (SlaveId c) p1),
         (set_TransactionId c1 t2), (frame_of t2 (SlaveId c1) p2).
  split; [apply Encode_frame|]. split; [apply Encode_frame|].
  destruct (frame_of_fields t1 (SlaveId c) p1 (uint16_range _)) as (H1 & _).
  destruct (frame_of_fields t2 (SlaveId c1) p2 (uint16_range _)) as (H2 & _).
  assert (N : t2 <> t1).
  { unfold t2, c1. cbn [TransactionId set_TransactionId].
    pose proof (uint16_range (TransactionId c + 1)) as R. fold t1 in R.
    unfold uint16. intros E.
    destruct (Z.eq_dec t1 65535) as [->|D].
    - vm_compute in E. discriminate E.
    - rewrite Z.mod_small in E by lia. lia. }
  rewrite Verify_cases by (rewrite ?frame_of_length; lia).
  unfold first_mismatch. rewrite H1, H2.
  split; [reflexivity|]. split; [exact N|].
  destruct (Z.eqb_spec t2 t1) as [E|_]; [contradiction|].
  cbn [negb option_map mismatch]. rewrite H1, H2. reflexivity.
Qed.

(** X8: [Verify] never returns "no error" on a truncated frame: whenever
    it returns nil, the request and the response each hold the 7 bytes of
    a header. *)
Theorem Verify_nil_needs_headers (request response : list byte) :
  Verify request response = Done None ->
  (7 <= length request)%nat /\ (7 <= length response)%nat.
Proof.
  unfold Verify.
  destruct response as [|r0 [|r1 rtl]]; try discriminate.
  destruct request as [|q0 [|q1 qtl]]; try discriminate.
  rewrite !Uint16_cons. cbn [go_bind].
  destruct (negb (256 * byte_to_Z r0 + byte_to_Z r1
                  =? 256 * byte_to_Z q0 + byte_to_Z q1)); [discriminate|].
  unfold slice_from. cbn [length Nat.leb skipn go_bind].
  destruct rtl as [|r2 [|r3 rtl]]; try discriminate.
  destruct qtl as [|q2 [|q3 qtl]]; try discriminate.
  rewrite !Uint16_cons. cbn [go_bind].
  destruct (negb (256 * byte_to_Z r2 + byte_to_Z r3
                  =? 256 * byte_to_Z q2 + byte_to_Z q3)); [discriminate|].
  unfold index.
  destruct rtl as [|r4 [|r5 [|r6 rtl]]]; try discriminate.
  destruct qtl as [|q4 [|q5 [|q6 qtl]]]; try discriminate.
  intros _. simpl. lia.
Qed.

Lemma Verify_nil_needs_headers_witness :
  (7 <= length read_holding)%nat /\ (7 <= length holding_response)%nat.
Proof.
  apply (Verify_nil_needs_headers read_holding holding_response).
  reflexivity.
Defined.

(** ** The exchange, path by path *)

Lemma fill_length (buf : list byte) (off n : nat) (bytes : list byte) :
  (off + n <= length buf)%nat ->
  length (fill buf off n bytes) = length buf.
Proof.
  intros H. unfold fill.
  pose proof (firstn_le_length n bytes) as G.
  rewrite !length_app, length_firstn, length_skipn. lia.
Qed.

Lemma fill_nth_before (buf : list byte) (off n i : nat) (bytes : list byte) :
  (i < off)%nat -> (off <= length buf)%nat ->
  nth i (fill buf off n bytes) x00 = nth i buf x00.
Proof.
  intros Hi Ho. unfold fill.
  rewrite app_nth1 by (rewrite length_firstn; lia).
  rewrite nth_firstn.
  destruct (Nat.ltb_spec i off); [reflexivity|lia].
Qed.

Lemma header_length_value (bytes : list byte) :
  exists L,
    go_bind (slice_from (fill (make MaxLength) 0 HeaderSize bytes) 4) Uint16
    = Done L /\
    0 <= L < 65536 /\
    be16_at (fill (make MaxLength) 0 HeaderSize bytes) 4 = L.
Proof.
  assert (Hlen : length (fill (make MaxLength) 0 HeaderSize bytes) = 260%nat).
  { rewrite fill_length; [reflexivity|]. unfold make.
    rewrite repeat_length. unfold HeaderSize, MaxLength. lia. }
  destruct (fill (make MaxLength) 0 HeaderSize bytes)
    as [|d0 [|d1 [|d2 [|d3 [|d4 [|d5 tl]]]]]]; try discriminate Hlen.
  exists (256 * byte_to_Z d4 + byte_to_Z d5).
  split; [|split].
  - unfold slice_from. cbn [length Nat.leb skipn go_bind]. apply Uint16_cons.
  - pose proof (byte_to_Z_range d4). pose proof (byte_to_Z_range d5). lia.
  - reflexivity.
Qed.

Lemma response_shape (hdr body : list byte) (L : Z) :
  0 < L -> L <= 254 ->
  be16_at (fill (make MaxLength) 0 HeaderSize hdr) 4 = L ->
  let response :=
    firstn (Z.to_nat (L + 6))
      (fill (fill (make MaxLength) 0 HeaderSize hdr) HeaderSize
         (Z.to_nat (L + 6) - HeaderSize) body) in
  (7 <= length response <= 260)%nat /\
  be16_at response 4 + 6 = len response.
Proof.
  intros H0 H1 HB response.
  assert (Hd : length (fill (make MaxLength) 0 HeaderSize hdr) = 260%nat).
  { rewrite fill_length; [reflexivity|]. unfold make.
    rewrite repeat_length. unfold HeaderSize, MaxLength. lia. }
  assert (Hr : length response = Z.to_nat (L + 6)).
  { unfold response. rewrite length_firstn, fill_length.
    - rewrite Hd. lia.
    - rewrite Hd. unfold HeaderSize. lia. }
  split; [lia|].
  unfold len. rewrite Hr, Z2Nat.id by lia.
  rewrite <- HB. f_equal. unfold be16_at, response.
  rewrite !nth_firstn.
  destruct (Nat.ltb_spec 4 (Z.to_nat (L + 6))); [|lia].
  destruct (Nat.ltb_spec 5 (Z.to_nat (L + 6))); [|lia].
  rewrite (fill_nth_before _ HeaderSize _ 4)
    by (rewrite ?Hd; unfold HeaderSize; lia).
  rewrite (fill_nth_before _ HeaderSize _ 5)
    by (rewrite ?Hd; unfold HeaderSize; lia).
  reflexivity.
Qed.

Lemma response_content (hdr body : list byte) (m : nat) :
  length hdr = 7%nat -> length body = m -> (7 + m <= 260)%nat ->
  firstn (7 + m)
    (fill (fill (make MaxLength) 0 HeaderSize hdr) HeaderSize m body)
  = hdr ++ body.
Proof.
  intros Hh Hb Hm.
  destruct hdr as [|h0 [|h1 [|h2 [|h3 [|h4 [|h5 [|h6 [|h7 tl]]]]]]]];
    try discriminate Hh.
  unfold fill at 2. unfold HeaderSize at 2.
  cbn [firstn length app Nat.add].
  unfold fill, HeaderSize. cbn [firstn app Nat.add].
  repeat f_equal.
  rewrite (firstn_all2 (n := m) body) by lia.
  rewrite firstn_app, Hb, Nat.sub_diag, firstn_all2 by lia.
  cbn [firstn]. apply app_nil_r.
Qed.

Lemma written_app (tr1 tr2 : list event) :
  written (tr1 ++ tr2) = written tr1 ++ written tr2.
Proof.
  induction tr1 as [|e tr1 IH]; [reflexivity|].
  destruct e; cbn [app written]; rewrite ?IH; reflexivity.
Qed.




Lemma wrote_ok_refl (k : conn) (request : list byte) (n : Z)
    (tr : list event) :
  wrote_ok request (EWrite k request n None :: tr) = true.
Proof.
  unfold wrote_ok. cbn [existsb].
  destruct (list_eq_dec byte_eq_dec request request); [reflexivity|].
  contradiction.
Qed.

Lemma wrote_ok_skip (request : list byte) (e : event) (tr : list event) :
  wrote_ok request tr = true -> wrote_ok request (e :: tr) = true.
Proof.
  unfold wrote_ok. cbn [existsb]. intros ->. apply orb_true_r.
Qed.

Ltac reduce_calls :=
  cbn [run bind ask lift trace outcome fst snd record answer
       header after_header] in *.

(** Take the environment's answer to the next call of the goal, in each
    of its shapes. *)
Ltac next_answer :=
  match goal with
  | |- context [reply ?E ?c ?w] =>
      let r := fresh "r" in
      let w' := fresh "w" in
      destruct (reply E c w) as [r w'];
      lazymatch c with
      | SetDeadline _ _ => destruct r as [?|]
      | SetReadDeadline _ _ => destruct r as [?|]
      | Close _ => destruct r as [?|]
      | ConnWrite _ _ => destruct r as [? [?|]]
      | ReadFull _ _ => destruct r as [? [?|]]
      | ConnRead _ _ => destruct r as [? [?|]]
      | Dial _ _ _ => destruct r as [[?|] [?|]]
      | Printf _ _ => destruct r
      | _ => idtac
      end;
      reduce_calls
  end.

Section Exchange.

Variable E : Env.

(** Follow [exchange] on a client that holds connection [k], answer by
    answer; [fin] closes each way the exchange can end. *)
Ltac walk_flush Hc fin :=
  unfold flush; rewrite ?Hc; reduce_calls;
  do 2 next_answer; [fin|next_answer; fin].

Ltac walk_body Hc fin :=
  match goal with
  | |- context [go_bind (slice_from (fill (make MaxLength) 0 HeaderSize ?bytes)
                           4) Uint16] =>
      let L := fresh "L" in
      let HL := fresh "HL" in
      let HR := fresh "HR" in
      let HB := fresh "HB" in
      destruct (header_length_value bytes) as (L & HL & HR & HB);
      rewrite HL; reduce_calls;
      change (Z.of_nat (MaxLength - (HeaderSize - 1))) with 254;
      change (Z.of_nat (HeaderSize - 1)) with 6;
      destruct (Z.leb_spec L 0);
      [ walk_flush Hc fin
      | destruct (Z.gtb_spec L 254);
        [ walk_flush Hc fin
        | replace ((HeaderSize <=? Z.to_nat (L + 6))%nat
                   && (Z.to_nat (L + 6) <=? MaxLength)%nat) with true
            by (symmetry; apply andb_true_intro; unfold HeaderSize, MaxLength;
                split; apply Nat.leb_le; lia);
          reduce_calls; next_answer; [fin|try next_answer; fin] ] ]
  end.

Ltac walk_exchange Hc fin :=
  unfold exchange, logf; rewrite ?Hc;
  destruct (Logger _); reduce_calls; [next_answer|];
  (do 2 next_answer;
   [ fin | next_answer; [ fin | next_answer; [ fin | walk_body Hc fin ] ] ]).

(** Every way [exchange] can end on a client that holds connection [k]. *)
Lemma exchange_summary (w : world E) (c : ModbusTcpClient) (k : conn)
    (request : list byte) :
  Conn c = Some k ->
  exists response err,
    outcome (run E (exchange c request) w) = Done (response, err) /\
    match err with
    | Some _ => response = []
    | None =>
        (7 <= length response <= 260)%nat /\
        be16_at response 4 + 6 = len response
    end /\
    forallb (stays_on k) (trace (run E (exchange c request) w)) = true /\
    (written (trace (run E (exchange c request) w)) = [] \/
     written (trace (run E (exchange c request) w)) = [request]) /\
    (existsb is_read (trace (run E (exchange c request) w)) = true ->
     wrote_ok request (trace (run E (exchange c request) w)) = true).
Proof.
  intros Hc.
  walk_exchange Hc
    ltac:(do 2 eexists; split; [reflexivity|];
          cbn [forallb stays_on written existsb is_read andb orb];
          rewrite ?Nat.eqb_refl;
          split; [first [reflexivity|apply response_shape; assumption]|];
          split; [reflexivity|];
          split; [auto|];
          intros Hread;
          first [discriminate Hread
                |repeat first [apply wrote_ok_refl|apply wrote_ok_skip]]).
Qed.

(** When both reads return as many bytes as they were asked for,
    [exchange] returns the header followed by the body. *)
Lemma exchange_frame_read (w : world E) (c : ModbusTcpClient) (k : conn)
    (request hdr body : list byte) (k1 k2 : conn) (n m : nat) :
  Conn c = Some k ->
  header (trace (run E (exchange c request) w))
    = Some (EReadFull k1 n hdr None) ->
  length hdr = 7%nat ->
  header (after_header (trace (run E (exchange c request) w)))
    = Some (EReadFull k2 m body None) ->
  length body = m ->
  outcome (run E (exchange c request) w) = Done (hdr ++ body, None) /\
  Z.of_nat m = be16_at hdr 4 - 1 /\ 1 <= be16_at hdr 4 <= 254.
Proof.
  intros Hc. revert hdr body k1 k2 n m.
  walk_exchange Hc
    ltac:(intros hdr body k1 k2 n m Hh Hl Hb Hm;
          try discriminate Hh; try discriminate Hb).
  all: injection Hh as <- <- ->; injection Hb as <- <- ->.
  all: rewrite (header_field _ Hl) in HL; injection HL as <-.
  all: assert (Hn : Z.to_nat (be16_at hdr 4 + 6)
                   = (7 + (Z.to_nat (be16_at hdr 4 + 6) - HeaderSize))%nat)
         by (unfold HeaderSize; lia).
  all: set (m := (Z.to_nat (be16_at hdr 4 + 6) - HeaderSize)%nat) in *.
  all: rewrite Hn, response_content by (subst m; unfold HeaderSize; lia).
  all: (split; [reflexivity|subst m; unfold HeaderSize; lia]).
Qed.


End Exchange.

(** ** [Send], path by path *)

Section SendPaths.

Variable E : Env.

Lemma exchange_without_conn (w : world E) (c : ModbusTcpClient)
    (request : list byte) :
  Conn c = None ->
  outcome (run E (exchange c request) w) = Panicked /\
  trace (run E (exchange c request) w)
  = (if Logger c then [EPrintf sending_format request] else []).
Proof.
  intros Hc. unfold exchange, logf. rewrite Hc.
  destruct (Logger c); reduce_calls; [next_answer|]; split; reflexivity.
Qed.

Lemma Send_held (w : world E) (c : ModbusTcpClient) (k : conn)
    (request : list byte) :
  Conn c = Some k ->
  run E (Send c request) w =
  (match outcome (run E (exchange c request) w) with
   | Done r => Done (c, r)
   | Panicked => Panicked
   end,
   trace (run E (exchange c request) w),
   snd (run E (exchange c request) w)).
Proof.
  intros Hc. unfold Send. rewrite Hc, run_bind.
  destruct (outcome (run E (exchange c request) w)); [|reflexivity].
  cbn [run outcome trace fst snd]. rewrite app_nil_r. reflexivity.
Qed.

Lemma Send_unconnected (w : world E) (c : ModbusTcpClient)
    (request : list byte) :
  Conn c = None ->
  let d := reply E (Dial "tcp" (IpAddress c) (dial_timeout c)) w in
  let c1 := set_Conn (set_Timeout c (dial_timeout c)) (fst (fst d)) in
  run E (Send c request) w =
  match snd (fst d) with
  | Some e =>
      (Done (c1, ([], Some e)),
       [EDial "tcp" (IpAddress c) (dial_timeout c) (fst (fst d)) (Some e)],
       snd d)
  | None =>
      let x := run E (exchange c1 request) (snd d) in
      let y := run E (Disconnect c1) (snd x) in
      (match outcome x, outcome y with
       | Done r, Done s => Done (fst s, r)
       | _, _ => Panicked
       end,
       EDial "tcp" (IpAddress c) (dial_timeout c) (fst (fst d)) None
       :: trace x ++ trace y,
       snd y)
  end.
Proof.
  intros Hc. cbv zeta. unfold Send. rewrite Hc, run_bind.
  pose proof (Connect_run E w c) as R. cbv zeta in R.
  change (if Timeout c <=? 0 then 5000 * Millisecond else Timeout c)
    with (dial_timeout c) in R.
  rewrite R. cbn [outcome trace fst snd].
  destruct (reply E (Dial "tcp" (IpAddress c) (dial_timeout c)) w)
    as [[ko [e|]] wd]; cbn [fst snd].
  - reflexivity.
  - rewrite run_deferred. cbn [app]. reflexivity.
Qed.


(** X9: on a client that holds a connection, [flush] asks for the time,
    sets that instant as read deadline, and returns what setting the
    deadline returned; only when that was nil it makes one read into the
    whole buffer, and whatever the read returns (bytes, a timeout, any
    other error) is dropped. *)
Theorem flush_returns_deadline_error (w : world E) (c : ModbusTcpClient)
    (k : conn) (b : list byte) :
  Conn c = Some k ->
  exists t r rest,
    trace (run E (flush c b) w)
    = ENow t :: ESetReadDeadline k t r :: rest /\
    outcome (run E (flush c b) w) = Done r /\
    match r with
    | Some _ => rest = []
    | None => exists bytes err, rest = [ERead k (length b) bytes err]
    end.
Proof.
  intros Hc. unfold flush. rewrite Hc. reduce_calls.
  do 2 next_answer; [|next_answer]; do 3 eexists;
    (split; [reflexivity|split; [reflexivity|]]);
    try reflexivity; do 2 eexists; reflexivity.
Qed.

(** X10: on a client that already holds a connection [Send] never
    panics, never dials and never closes: every call it makes is about
    that connection (or the clock, or the logger), and the client is left
    exactly as it was. *)
Theorem Send_keeps_held_connection (w : world E) (c : ModbusTcpClient)
    (k : conn) (request : list byte) :
  Conn c = Some k ->
  exists result,
    outcome (run E (Send c request) w) = Done (c, result) /\
    forallb (stays_on k) (trace (run E (Send c request) w)) = true.
Proof.
  intros Hc. rewrite (Send_held w c k request Hc).
  destruct (exchange_summary E w c k request Hc)
    as (response & err & Ho & _ & Hk & _).
  rewrite Ho. cbn [outcome trace fst snd].
  exists (response, err). split; [reflexivity|exact Hk].
Qed.

(** X11: on a client without a connection, when the dial returns a
    connection, [Send] never panics and closes that connection as its last
    call, on every path; in between it makes the calls of the exchange on
    that connection and no other.  What it returns is what that exchange
    returned before the close was made: the error of the close is not
    returned.  The client ends without a connection when the close
    succeeded and still holding it when the close failed, and keeps the
    timeout it dialled with. *)
Theorem Send_closes_dialled_connection (w : world E) (c : ModbusTcpClient)
    (k : conn) (request : list byte) :
  Conn c = None ->
  fst (reply E (Dial "tcp" (IpAddress c) (dial_timeout c)) w)
  = (Some k, None) ->
  let dialled := set_Conn (set_Timeout c (dial_timeout c)) (Some k) in
  let x :=
    run E (exchange dialled request)
      (snd (reply E (Dial "tcp" (IpAddress c) (dial_timeout c)) w)) in
  exists c' result r,
    outcome (run E (Send c request) w) = Done (c', result) /\
    outcome x = Done result /\
    trace (run E (Send c request) w)
    = EDial "tcp" (IpAddress c) (dial_timeout c) (Some k) None
      :: trace x ++ [EClose k r] /\
    r = fst (reply E (Close k) (snd x)) /\
    forallb (stays_on k) (trace x) = true /\
    c' = match r with
         | Some _ => dialled
         | None => set_Conn dialled None
         end /\
    Conn c' = match r with
              | Some _ => Some k
              | None => None
              end /\
    Timeout c' = dial_timeout c.
Proof.
  intros Hc Hd. cbv zeta.
  pose proof (Send_unconnected w c request Hc) as R.
  cbv zeta in R. rewrite R. clear R.
  destruct (reply E (Dial "tcp" (IpAddress c) (dial_timeout c)) w)
    as [[ko err] wd].
  cbn [fst snd] in *. injection Hd as -> ->.
  set (c1 := set_Conn (set_Timeout c (dial_timeout c)) (Some k)).
  destruct (exchange_summary E wd c1 k request eq_refl)
    as (response & err & Ho & _ & Hk & _).
  rewrite Ho, Disconnect_cases. cbn [Conn c1 set_Conn].
  cbv zeta. cbn [outcome trace fst snd].
  destruct (reply E (Close k) (snd (run E (exchange c1 request) wd)))
    as [r w2].
  cbn [fst snd].
  exists (fst (match r with
               | Some e => (c1, Some e)
               | None => (set_Conn c1 None, None)
               end)), (response, err), r.
  split; [reflexivity|]. split; [reflexivity|]. split; [reflexivity|].
  split; [reflexivity|]. split; [exact Hk|].
  destruct r; repeat split; reflexivity.
Qed.

(** X12: on a client without a connection, when the dial reports an
    error, [Send] returns that error with a nil response, and the dial is
    the only call it makes: nothing is written, nothing is closed. *)
Theorem Send_returns_dial_error (w : world E) (c : ModbusTcpClient)
    (request : list byte) (e : error) :
  Conn c = None ->
  snd (fst (reply E (Dial "tcp" (IpAddress c) (dial_timeout c)) w))
  = Some e ->
  exists c' handle,
    outcome (run E (Send c request) w) = Done (c', ([], Some e)) /\
    trace (run E (Send c request) w)
    = [EDial "tcp" (IpAddress c) (dial_timeout c) handle (Some e)] /\
    Conn c' = handle.
Proof.
  intros Hc Hd. pose proof (Send_unconnected w c request Hc) as R.
  cbv zeta in R. rewrite R, Hd. clear R.
  do 2 eexists. repeat split.
Qed.

(** What [Send] returns, on every path that returns. *)
Lemma Send_result_shape (w : world E) (c c' : ModbusTcpClient)
    (request response : list byte) (err : option error) :
  outcome (run E (Send c request) w) = Done (c', (response, err)) ->
  match err with
  | Some _ => response = []
  | None =>
      (7 <= length response <= 260)%nat /\
      be16_at response 4 + 6 = len response
  end.
Proof.
  destruct (Conn c) as [k|] eqn:Hc.
  - rewrite (Send_held w c k request Hc).
    destruct (exchange_summary E w c k request Hc)
      as (response0 & err0 & Ho & Hs & _).
    rewrite Ho. cbn [outcome fst]. intros [= _ <- <-]. exact Hs.
  - pose proof (Send_unconnected w c request Hc) as R.
    cbv zeta in R. rewrite R. clear R.
    destruct (reply E (Dial "tcp" (IpAddress c) (dial_timeout c)) w)
      as [[[k|] [e|]] wd]; cbn [fst snd outcome].
    + intros [= _ <- <-]. reflexivity.
    + set (c1 := set_Conn (set_Timeout c (dial_timeout c)) (Some k)).
      destruct (exchange_summary E wd c1 k request eq_refl)
        as (response0 & err0 & Ho & Hs & _).
      rewrite Ho.
      destruct (outcome (run E (Disconnect c1) _)); [|discriminate].
      intros [= _ <- <-]. exact Hs.
    + intros [= _ <- <-]. reflexivity.
    + set (c1 := set_Conn (set_Timeout c (dial_timeout c)) None).
      destruct (exchange_without_conn wd c1 request eq_refl) as (Ho & _).
      rewrite Ho. discriminate.
Qed.

(** X13: whenever [Send] returns an error the response is nil, and
    whenever it returns no error the response holds at least the 7 bytes
    of a header and at most 260 bytes, the size of its buffer. *)
Theorem Send_response_bounds (w : world E) (c c' : ModbusTcpClient)
    (request response : list byte) (err : option error) :
  outcome (run E (Send c request) w) = Done (c', (response, err)) ->
  (err <> None -> response = []) /\
  (err = None -> (7 <= length response <= 260)%nat).
Proof.
  intros H. pose proof (Send_result_shape w c c' request response err H) as S.
  destruct err as [e|]; split; intros G.
  - exact S.
  - discriminate G.
  - contradiction G. reflexivity.
  - apply S.
Qed.

(** X14: a response that [Send] returned without error never makes
    [Decode] panic: its length field counts the bytes after offset 6, so
    [Decode] returns the function code and payload, save for a response
    that is a bare header (declared length 1), on which it returns the
    length-mismatch error. *)
Theorem Decode_Send_response (w : world E) (c c' : ModbusTcpClient)
    (request response : list byte) :
  outcome (run E (Send c request) w) = Done (c', (response, None)) ->
  be16_at response 4 + 6 = len response /\
  Decode response =
  if (length response =? 7)%nat
  then Done (None, Some (Errorf length_mismatch_format [0; 0]))
  else Done (Some {| FunctionCode := byte_at response 7;
                     Data := skipn 8 response |}, None).
Proof.
  intros H.
  destruct (Send_result_shape w c c' request response None H) as (Hb & Hf).
  split; [exact Hf|].
  rewrite Decode_cases by lia.
  replace (be16_at response 4 - 1) with (len response - 7) by lia.
  unfold len in *. unfold uint16. rewrite Z.mod_small by lia.
  rewrite Z.eqb_refl. cbn [negb]. rewrite orb_false_r.
  destruct (Nat.eqb_spec (length response) 7) as [E7|N7].
  - rewrite E7. reflexivity.
  - replace (Z.of_nat (length response) - 7 <=? 0) with false
      by (symmetry; apply Z.leb_gt; lia).
    reflexivity.
Qed.


(** X15: when the header read and the body read both return as many
    bytes as they were asked for, [Send] returns the 7 header bytes
    followed by the body bytes, and the body read asked for one byte less
    than the declared length, which lies between 1 and 254. *)
Theorem Send_returns_frame_read (w : world E) (c : ModbusTcpClient)
    (request hdr body : list byte) (k1 k2 : conn) (n m : nat) :
  header (trace (run E (Send c request) w))
    = Some (EReadFull k1 n hdr None) ->
  length hdr = 7%nat ->
  header (after_header (trace (run E (Send c request) w)))
    = Some (EReadFull k2 m body None) ->
  length body = m ->
  exists c',
    outcome (run E (Send c request) w) = Done (c', (hdr ++ body, None)) /\
    Z.of_nat m = be16_at hdr 4 - 1 /\
    1 <= be16_at hdr 4 <= 254.
Proof.
  intros Hh Hl Hb Hm.
  destruct (Conn c) as [k|] eqn:Hc.
  - rewrite (Send_held w c k request Hc) in *.
    cbn [outcome trace fst snd] in *.
    destruct (exchange_frame_read E w c k request hdr body k1 k2 n m
                Hc Hh Hl Hb Hm) as (Ho & Hn).
    rewrite Ho. exists c. split; [reflexivity|exact Hn].
  - pose proof (Send_unconnected w c request Hc) as R.
    cbv zeta in R. rewrite R in *. clear R.
    destruct (reply E (Dial "tcp" (IpAddress c) (dial_timeout c)) w)
      as [[[k|] [e|]] wd]; cbn [fst snd outcome trace header] in *;
      try discriminate Hh.
    + set (c1 := set_Conn (set_Timeout c (dial_timeout c)) (Some k)) in *.
      set (x := run E (exchange c1 request) wd) in *.
      destruct (Disconnect_run E (snd x) c1) as (d & Hd1 & Hd2 & _).
      rewrite header_app, Hd2 in Hh.
      assert (Hx : header (trace x) = Some (EReadFull k1 n hdr None))
        by (destruct (header (trace x)); [exact Hh|discriminate Hh]).
      cbn [after_header] in Hb.
      rewrite after_header_app in Hb by (rewrite Hx; discriminate).
      rewrite header_app, Hd2 in Hb.
      assert (Hy : header (after_header (trace x))
                   = Some (EReadFull k2 m body None))
        by (destruct (header (after_header (trace x)));
            [exact Hb|discriminate Hb]).
      destruct (exchange_frame_read E wd c1 k request hdr body k1 k2 n m
                  eq_refl Hx Hl Hy Hm) as (Ho & Hn).
      fold x in Ho. rewrite Ho, Hd1.
      exists (fst d). split; [reflexivity|exact Hn].
    + exfalso.
      set (c1 := set_Conn (set_Timeout c (dial_timeout c)) None) in *.
      destruct (exchange_without_conn wd c1 request eq_refl) as (_ & Ht).
      destruct (Disconnect_run E
                  (snd (run E (exchange c1 request) wd)) c1)
        as (d & _ & Hd2 & _).
      rewrite header_app, Hd2, Ht in Hh.
      destruct (Logger c1); discriminate Hh.
Qed.

(** X16: [Send] panics in one case only: the client holds no connection
    and the dial returns neither a connection nor an error. *)
Theorem Send_panics_only_on_empty_dial (w : world E) (c : ModbusTcpClient)
    (request : list byte) :
  outcome (run E (Send c request) w) = Panicked <->
  Conn c = None /\
  fst (reply E (Dial "tcp" (IpAddress c) (dial_timeout c)) w) = (None, None).
Proof.
  destruct (Conn c) as [k|] eqn:Hc.
  - rewrite (Send_held w c k request Hc).
    destruct (exchange_summary E w c k request Hc)
      as (response & err & Ho & _).
    rewrite Ho. cbn [outcome fst].
    split; [discriminate|intros [H _]; discriminate H].
  - pose proof (Send_unconnected w c request Hc) as R.
    cbv zeta in R. rewrite R. clear R.
    destruct (reply E (Dial "tcp" (IpAddress c) (dial_timeout c)) w)
      as [[[k|] [e|]] wd]; cbn [fst snd outcome].
    + split; [discriminate|intros [_ H]; discriminate H].
    + set (c1 := set_Conn (set_Timeout c (dial_timeout c)) (Some k)).
      destruct (exchange_summary E wd c1 k request eq_refl)
        as (response & err & Ho & _).
      destruct (Disconnect_run E
                  (snd (run E (exchange c1 request) wd)) c1)
        as (d & Hd1 & _).
      rewrite Ho, Hd1.
      split; [discriminate|intros [_ H]; discriminate H].
    + split; [discriminate|intros [_ H]; discriminate H].
    + set (c1 := set_Conn (set_Timeout c (dial_timeout c)) None).
      destruct (exchange_without_conn wd c1 request eq_refl) as (Ho & _).
      rewrite Ho. split; [intros _; split; reflexivity|reflexivity].
Qed.

(** X17: [Send] writes to the connection at most once, and then the
    request it was given and nothing else; it reads from the connection
    only after a write of the request that reported no error. *)
Theorem Send_writes_request_once (w : world E) (c : ModbusTcpClient)
    (request : list byte) :
  (written (trace (run E (Send c request) w)) = [] \/
   written (trace (run E (Send c request) w)) = [request]) /\
  (existsb is_read (trace (run E (Send c request) w)) = true ->
   wrote_ok request (trace (run E (Send c request) w)) = true).
Proof.
  destruct (Conn c) as [k|] eqn:Hc.
  - rewrite (Send_held w c k request Hc). cbn [trace fst snd].
    destruct (exchange_summary E w c k request Hc)
      as (response & err & _ & _ & _ & Hw & Hr).
    split; assumption.
  - pose proof (Send_unconnected w c request Hc) as R.
    cbv zeta in R. rewrite R. clear R.
    destruct (reply E (Dial "tcp" (IpAddress c) (dial_timeout c)) w)
      as [[[k|] [e|]] wd]; cbn [fst snd trace written existsb is_read orb].
    + split; [left; reflexivity|discriminate].
    + set (c1 := set_Conn (set_Timeout c (dial_timeout c)) (Some k)).
      destruct (exchange_summary E wd c1 k request eq_refl)
        as (response & err & _ & _ & _ & Hw & Hr).
      rewrite Disconnect_cases. cbn [Conn c1 set_Conn]. cbv zeta.
      cbn [trace fst snd].
      rewrite written_app, existsb_app. cbn [written existsb is_read].
      rewrite app_nil_r, !orb_false_r.
      split; [exact Hw|]. intros H. apply wrote_ok_skip.
      unfold wrote_ok. rewrite existsb_app. apply orb_true_iff. left.
      apply Hr. exact H.
    + split; [left; reflexivity|discriminate].
    + set (c1 := set_Conn (set_Timeout c (dial_timeout c)) None).
      destruct (exchange_without_conn wd c1 request eq_refl) as (_ & Ht).
      rewrite Ht, Disconnect_cases. cbn [Conn c1 set_Conn trace fst snd].
      rewrite app_nil_r.
      destruct (Logger c1); cbn [written existsb is_read orb];
        (split; [left; reflexivity|discriminate]).
Qed.


End SendPaths.

(** ** The transport theorems on the scripted peer *)

Lemma flush_returns_deadline_error_witness :
  exists t r rest,
    trace (run script (flush held_client (make MaxLength)) (peer [x03]))
    = ENow t :: ESetReadDeadline 1%nat t r :: rest /\
    outcome (run script (flush held_client (make MaxLength)) (peer [x03]))
    = Done r /\
    match r with
    | Some _ => rest = []
    | None =>
        exists bytes err,
          rest = [ERead 1%nat (length (make MaxLength)) bytes err]
    end.
Proof.
  apply (flush_returns_deadline_error script (peer [x03]) held_client 1%nat
           (make MaxLength)).
  reflexivity.
Defined.

Lemma Send_keeps_held_connection_witness :
  exists result,
    outcome (run script (Send held_client read_holding)
               (peer holding_response))
    = Done (held_client, result) /\
    forallb (stays_on 1%nat)
      (trace (run script (Send held_client read_holding)
                (peer holding_response)))
    = true.
Proof.
  apply (Send_keeps_held_connection script (peer holding_response)
           held_client 1%nat read_holding).
  reflexivity.
Defined.

Lemma Send_closes_dialled_connection_witness :
  exists c' result r,
    outcome (run script (Send joined_client read_holding)
               (peer_closing_badly holding_response))
    = Done (c', result) /\
    outcome (run script
               (exchange
                  (set_Conn (set_Timeout joined_client
                               (dial_timeout joined_client)) (Some 1%nat))
                  read_holding)
               (peer_closing_badly holding_response))
    = Done result /\
    trace (run script (Send joined_client read_holding)
             (peer_closing_badly holding_response))
    = EDial "tcp" (IpAddress joined_client) (dial_timeout joined_client)
        (Some 1%nat) None
      :: trace (run script
                  (exchange
                     (set_Conn (set_Timeout joined_client
                                  (dial_timeout joined_client)) (Some 1%nat))
                     read_holding)
                  (peer_closing_badly holding_response))
         ++ [EClose 1%nat r] /\
    r = Some close_failed /\
    forallb (stays_on 1%nat)
      (trace (run script
                (exchange
                   (set_Conn (set_Timeout joined_client
                                (dial_timeout joined_client)) (Some 1%nat))
                   read_holding)
                (peer_closing_badly holding_response)))
    = true /\
    c' = match r with
         | Some _ =>
             set_Conn (set_Timeout joined_client
                         (dial_timeout joined_client)) (Some 1%nat)
         | None =>
             set_Conn
               (set_Conn (set_Timeout joined_client
                            (dial_timeout joined_client)) (Some 1%nat))
               None
         end /\
    Conn c' = match r with
              | Some _ => Some 1%nat
              | None => None
              end /\
    Timeout c' = dial_timeout joined_client.
Proof.
  apply (Send_closes_dialled_connection script
           (peer_closing_badly holding_response)
           joined_client 1%nat read_holding); reflexivity.
Defined.

(** The error of the close is dropped: against a peer whose close fails,
    [Send] returns the response with no error and the client keeps the
    connection. *)
Example Send_drops_close_error :
  run script (Send joined_client read_holding)
    (peer_closing_badly holding_response)
  = (Done (set_Conn (set_Timeout joined_client (5000 * Millisecond))
             (Some 1%nat),
           (holding_response, None)),
     [EDial "tcp" "127.0.0.1:502" (5000 * Millisecond) (Some 1%nat) None;
      ENow 0; ESetDeadline 1%nat (5000 * Millisecond) None;
      EWrite 1%nat read_holding 12 None;
      EReadFull 1%nat 7 (firstn 7 holding_response) None;
      EReadFull 1%nat 2 [x03; x2a] None;
      EClose 1%nat (Some close_failed)],
     peer_closing_badly []).
Proof. reflexivity. Qed.

Lemma Send_returns_dial_error_witness :
  exists c' handle,
    outcome (run script (Send plant_client read_holding) (peer []))
    = Done (c', ([], Some refused)) /\
    trace (run script (Send plant_client read_holding) (peer []))
    = [EDial "tcp" (IpAddress plant_client) (dial_timeout plant_client)
         handle (Some refused)] /\
    Conn c' = handle.
Proof.
  apply (Send_returns_dial_error script (peer []) plant_client
           read_holding refused); reflexivity.
Defined.

Lemma Send_response_bounds_witness :
  (@None error <> None -> holding_response = []) /\
  (@None error = None -> (7 <= length holding_response <= 260)%nat).
Proof.
  apply (Send_response_bounds script (peer holding_response) joined_client
           (set_Timeout joined_client (5000 * Millisecond))
           read_holding holding_response None).
  reflexivity.
Defined.

Lemma Decode_Send_response_witness :
  be16_at holding_response 4 + 6 = len holding_response /\
  Decode holding_response =
  if (length holding_response =? 7)%nat
  then Done (None, Some (Errorf length_mismatch_format [0; 0]))
  else Done (Some {| FunctionCode := byte_at holding_response 7;
                     Data := skipn 8 holding_response |}, None).
Proof.
  apply (Decode_Send_response script (peer holding_response) joined_client
           (set_Timeout joined_client (5000 * Millisecond))
           read_holding holding_response).
  reflexivity.
Defined.

Lemma Send_returns_frame_read_witness :
  exists c',
    outcome (run script (Send joined_client read_holding)
               (peer holding_response))
    = Done (c', (firstn 7 holding_response ++ [x03; x2a], None)) /\
    Z.of_nat 2 = be16_at (firstn 7 holding_response) 4 - 1 /\
    1 <= be16_at (firstn 7 holding_response) 4 <= 254.
Proof.
  apply (Send_returns_frame_read script (peer holding_response)
           joined_client read_holding (firstn 7 holding_response)
           [x03; x2a] 1%nat 1%nat 7%nat 2%nat); reflexivity.
Defined.

(** The one panic of [Send], against a peer whose dial returns nothing. *)
Example Send_panics_on_empty_dial :
  run mute (Send plant_client read_holding) tt
  = (Panicked,
     [EDial "tcp" "127.0.0.1" (5000 * Millisecond) None None], tt).
Proof. reflexivity. Qed.

(** ** What [Decode] returns *)

Lemma skipn_7_cons (adu : list byte) :
  (8 <= length adu)%nat ->
  adu = firstn 7 adu ++ byte_at adu 7 :: skipn 8 adu.
Proof.
  intros H.
  destruct adu as [|a0 [|a1 [|a2 [|a3 [|a4 [|a5 [|a6 [|a7 tl]]]]]]]];
    try (simpl in H; lia).
  reflexivity.
Qed.

(** A frame for which [Decode] returns a PDU. *)
Lemma Decode_pdu_frame (adu : list byte) (p : Pdu) (err : option error) :
  Decode adu = Done (Some p, err) ->
  err = None /\
  adu = firstn 7 adu ++ FunctionCode p :: Data p /\
  be16_at adu 4 = (len adu - 6) mod 65536.
Proof.
  intros H.
  destruct (Nat.ltb_spec (length adu) 6) as [S|S].
  - rewrite (Decode_short adu S) in H. discriminate H.
  - rewrite (Decode_cases adu S) in H.
    destruct ((len adu - 7 <=? 0)
              || negb (len adu - 7 =? uint16 (be16_at adu 4 - 1))) eqn:C;
      [discriminate H|].
    injection H as <- <-. apply orb_false_elim in C.
    destruct C as [C1 C2]. apply Z.leb_gt in C1.
    apply negb_false_iff, Z.eqb_eq in C2.
    cbn [FunctionCode Data]. split; [reflexivity|]. split.
    + apply skipn_7_cons. unfold len in C1. lia.
    + assert (R : 0 <= be16_at adu 4 < 65536).
      { unfold be16_at.
        pose proof (byte_to_Z_range (nth 4 adu x00)).
        pose proof (byte_to_Z_range (nth 5 adu x00)). lia. }
      replace (len adu - 6) with (len adu - 7 + 1) by lia.
      rewrite C2. unfold uint16.
      rewrite Z.add_mod_idemp_l by lia.
      replace (be16_at adu 4 - 1 + 1) with (be16_at adu 4) by lia.
      symmetry. apply Z.mod_small. exact R.
Qed.

(** X19: whenever [Decode] returns, it returns a PDU or an error and
    never both or neither; with a PDU, the frame is its first 7 bytes
    followed by the function code and the payload, nothing is dropped,
    and its length field is the number of bytes after offset 6 modulo
    65536; with an error, the error is the length-mismatch error built
    from [length - 1] in 16 bits and [len(adu) - 7], and the frame has at
    most 7 bytes or those two numbers differ. *)
Theorem Decode_pdu_or_error (adu : list byte) (pdu : option Pdu)
    (err : option error) :
  Decode adu = Done (pdu, err) ->
  match pdu, err with
  | Some p, None =>
      adu = firstn 7 adu ++ FunctionCode p :: Data p /\
      be16_at adu 4 = (len adu - 6) mod 65536
  | None, Some e =>
      e = Errorf length_mismatch_format
            [(be16_at adu 4 - 1) mod 65536; len adu - 7] /\
      (len adu <= 7 \/ len adu - 7 <> (be16_at adu 4 - 1) mod 65536)
  | _, _ => False
  end.
Proof.
  intros H. destruct pdu as [p|].
  - destruct (Decode_pdu_frame adu p err H) as (-> & Hs & Hl).
    split; assumption.
  - destruct (Nat.ltb_spec (length adu) 6) as [S|S].
    + rewrite (Decode_short adu S) in H. discriminate H.
    + rewrite (Decode_cases adu S) in H.
      destruct ((len adu - 7 <=? 0)
                || negb (len adu - 7 =? uint16 (be16_at adu 4 - 1))) eqn:C;
        [|discriminate H].
      injection H as <-. split; [reflexivity|].
      apply orb_true_iff in C. destruct C as [C|C].
      * left. apply Z.leb_le in C. lia.
      * right. apply negb_true_iff, Z.eqb_neq in C. exact C.
Qed.

Lemma Decode_pdu_or_error_witness :
  holding_response
  = firstn 7 holding_response ++ x03 :: [x2a] /\
  be16_at holding_response 4 = (len holding_response - 6) mod 65536.
Proof.
  apply (Decode_pdu_or_error holding_response
           (Some {| FunctionCode := x03; Data := [x2a] |}) None).
  reflexivity.
Defined.

Lemma be16_bytes (hi lo : byte) :
  byte_of_Z (Z.shiftr (256 * byte_to_Z hi + byte_to_Z lo) 8) = hi /\
  byte_of_Z (256 * byte_to_Z hi + byte_to_Z lo) = lo.
Proof.
  pose proof (byte_to_Z_range hi) as Hh.
  pose proof (byte_to_Z_range lo) as Hl.
  split; apply byte_to_Z_inj; rewrite byte_to_of_Z.
  - rewrite Z.shiftr_div_pow2 by lia. change (2 ^ 8) with 256.
    replace (256 * byte_to_Z hi + byte_to_Z lo)
      with (byte_to_Z lo + byte_to_Z hi * 256) by lia.
    rewrite Z.div_add, Z.div_small by lia.
    rewrite Z.mod_small; lia.
  - replace (256 * byte_to_Z hi + byte_to_Z lo)
      with (byte_to_Z lo + byte_to_Z hi * 256) by lia.
    rewrite Z.mod_add by lia. apply Z.mod_small. exact Hl.
Qed.

(** X20: the round trip the other way: when [Decode] returns a PDU for a
    frame whose protocol id is 0, [Encode] of that PDU on a client whose
    unit id is the frame's and whose counter is one step before the
    frame's transaction id builds the very same frame. *)
Theorem Encode_Decode_roundtrip (c : ModbusTcpClient) (adu : list byte)
    (pdu : Pdu) :
  Decode adu = Done (Some pdu, None) ->
  be16_at adu 0 = (TransactionId c + 1) mod 65536 ->
  be16_at adu 2 = 0 ->
  byte_at adu 6 = SlaveId c ->
  exists c', Encode c pdu = Done (c', (adu, None)).
Proof.
  intros HD H0 H2 H6.
  destruct (Decode_pdu_frame adu pdu None HD) as (_ & Hs & Hl).
  pose proof (f_equal (@length byte) Hs) as HL.
  rewrite length_app, length_firstn in HL. cbn [length] in HL.
  assert (L8 : (8 <= length adu)%nat) by lia.
  assert (Hn : len adu = len (Data pdu) + 8) by (unfold len; lia).
  eexists. rewrite Encode_frame. do 3 f_equal. unfold frame_of.
  destruct adu as [|a0 [|a1 [|a2 [|a3 [|a4 [|a5 [|a6 [|a7 tl]]]]]]]];
    try (simpl in L8; lia).
  unfold be16_at, byte_at in *. cbn [nth firstn app] in *.
  assert (E0 : uint16 (TransactionId c + 1)
               = 256 * byte_to_Z a0 + byte_to_Z a1)
    by (unfold uint16; congruence).
  assert (E4 : uint16 (2 + len (Data pdu))
               = 256 * byte_to_Z a4 + byte_to_Z a5).
  { unfold uint16. rewrite Hl. f_equal. lia. }
  rewrite E0, E4.
  destruct (be16_bytes a0 a1) as [-> ->].
  destruct (be16_bytes a4 a5) as [-> ->].
  assert (Z2 : a2 = x00 /\ a3 = x00).
  { pose proof (byte_to_Z_range a2). pose proof (byte_to_Z_range a3).
    split; apply byte_to_Z_inj; change (byte_to_Z x00) with 0; lia. }
  destruct Z2 as [-> ->]. rewrite <- H6.
  injection Hs as Hf Hd. rewrite <- Hf, <- Hd. reflexivity.
Qed.

Lemma Encode_Decode_roundtrip_witness :
  exists c',
    Encode plant_client {| FunctionCode := x03; Data := [x2a] |}
    = Done (c', ([x00; x01; x00; x00; x00; x03; x00; x03; x2a], None)).
Proof.
  apply (Encode_Decode_roundtrip plant_client
           [x00; x01; x00; x00; x00; x03; x00; x03; x2a]
           {| FunctionCode := x03; Data := [x2a] |}); reflexivity.
Defined.
